(** * SkyrimBooks: the wiki scraper [scrape.js], embedded and verified

    The script fetches three listing pages of a wiki (the floors of a
    library), collects the links to the book articles found in their
    bulleted shelves and tables, fetches every article and extracts a
    [Book] (a title and the places the book is found), and prints the
    books of the three floors as one JSON array.

    Modelling choices, all of them visible in the definitions below:

    - A JavaScript string is a [string]; one [ascii] stands for one code
      unit below 256, so the white space removed by [trim] is the part of
      ECMAScript's WhiteSpace and LineTerminator that lies in that range.
    - The tree built by [cheerio.load] is a [list node]; a Cheerio
      selection is a list of [cursor]s (an element together with the
      siblings that follow it, which is what [.next()] needs), in
      document order.
    - [axios.get] and [cheerio.load] are the two external collaborators
      and are parameters of the development.  The network is a state
      [world] threaded through the fetches; a fetch either resolves with
      the text of the page or rejects.
    - An asynchronous function is a state transformer whose outcome is
      the state of its promise: [Fulfilled], [Rejected] or [Pending].
      The retry loops of the script are unbounded recursion, embedded
      with a fuel argument: [Pending] is the outcome of a call whose
      fuel ran out, a promise that has not settled within that many
      attempts.
    - [Promise.all] runs the promises it is given one after the other,
      in the order in which the script created them, where JavaScript
      lets their requests interleave; when several of them reject it
      keeps the first rejection in that order, where JavaScript keeps the
      one that happens first.  A loop that throws on an anchor without
      [href] makes no request here, where the script has by then called
      [getBook] for the anchors accepted before it.  The statements below
      speak of whether a promise is fulfilled, rejected or pending and of
      the values it is fulfilled with, never of which of several errors
      wins or of the state of the network after a rejected run. *)

From Stdlib Require Import String Ascii List Bool Arith Lia Permutation.
Import ListNotations.
Set Warnings "-register-all".
Local Open Scope string_scope.
Local Open Scope list_scope.

(* ===================================================================== *)
(** ** JavaScript strings *)
(* ===================================================================== *)

Module JsString.

(** White space as [String.prototype.trim] and the regular expression
    class [\s] see it, for code units below 256: TAB, LF, VT, FF, CR,
    SPACE and NO-BREAK SPACE. *)
Definition is_space (c : ascii) : bool :=
  let n := nat_of_ascii c in
  ((n =? 9) || (n =? 10) || (n =? 11) || (n =? 12) || (n =? 13)
   || (n =? 32) || (n =? 160))%nat.

Fixpoint trimStart (s : string) : string :=
  match s with
  | EmptyString => EmptyString
  | String c s' => if is_space c then trimStart s' else s
  end.

Fixpoint trimEnd (s : string) : string :=
  match s with
  | EmptyString => EmptyString
  | String c s' =>
      let t := trimEnd s' in
      if is_space c && (t =? "") then EmptyString else String c t
  end.

(** [s.trim()] *)
Definition trim (s : string) : string := trimEnd (trimStart s).

(** [s.startsWith(p)] *)
Definition startsWith (s p : string) : bool := String.prefix p s.

(** [s.includes(p)]: [p] occurs in [s] at some position. *)
Fixpoint includes (s p : string) : bool :=
  String.prefix p s
  || match s with
     | EmptyString => false
     | String _ s' => includes s' p
     end.

(** [parts.join("")] *)
Definition join (parts : list string) : string :=
  fold_right String.append EmptyString parts.

(** The tokens of a white-space separated list, as the class selector
    reads the [class] attribute. *)
Fixpoint tokens_from (cur : string) (s : string) : list string :=
  match s with
  | EmptyString => if cur =? "" then [] else [cur]
  | String c s' =>
      if is_space c
      then (if cur =? "" then [] else [cur]) ++ tokens_from "" s'
      else tokens_from (String.append cur (String c EmptyString)) s'
  end.

Definition tokens (s : string) : list string := tokens_from "" s.

End JsString.
Import JsString.

(* ===================================================================== *)
(** ** The document tree and the part of Cheerio the script uses *)
(* ===================================================================== *)

Module Dom.

Definition attributes := list (string * string).

Inductive node : Type :=
| Text (data : string)
| Comment (data : string)
| Elem (name : string) (attribs : attributes) (children : list node).

(** An element of a selection: the node and the siblings after it. *)
Record cursor : Type := Cursor { cur : node; following : list node }.

(** A Cheerio object. *)
Definition cheerio := list cursor.

Fixpoint lookup {A} (key : string) (al : list (string * A)) : option A :=
  match al with
  | [] => None
  | (k, v) :: al' => if k =? key then Some v else lookup key al'
  end.

(** [$(el).attr(key)]: [None] is JavaScript's [undefined]. *)
Definition attr (key : string) (n : node) : option string :=
  match n with
  | Elem _ attribs _ => lookup key attribs
  | _ => None
  end.

(** The text content of a node: its text descendants, concatenated. *)
Fixpoint textContent (n : node) : string :=
  match n with
  | Text data => data
  | Comment _ => EmptyString
  | Elem _ _ children => join (map textContent children)
  end.

(** [sel.text()] *)
Definition text (sel : cheerio) : string :=
  join (map (fun c => textContent (cur c)) sel).

(** *** Selectors *)

(** A compound selector [tag] or [tag.class]. *)
Record compound : Type :=
  Compound { sel_tag : string; sel_class : option string }.

Inductive selector : Type :=
| Simple (c : compound)
| Child (parent : selector) (c : compound)        (* parent > c *)
| Descendant (ancestor : selector) (c : compound) (* ancestor c *).

Definition tag (t : string) : compound := Compound t None.
Definition tag_class (t cls : string) : compound := Compound t (Some cls).

Definition has_class (cls : string) (attribs : attributes) : bool :=
  match lookup "class" attribs with
  | Some v => existsb (String.eqb cls) (tokens v)
  | None => false
  end.

Definition element := (string * attributes)%type.

Definition matches_compound (c : compound) (e : element) : bool :=
  (fst e =? sel_tag c)
  && match sel_class c with
     | Some cls => has_class cls (snd e)
     | None => true
     end.

(** [matches s e ancestors]: the element [e], whose ancestors are
    [ancestors] (the parent first), is selected by [s]. *)
Fixpoint matches (s : selector) (e : element) (ancestors : list element)
  : bool :=
  match s with
  | Simple c => matches_compound c e
  | Child p c =>
      matches_compound c e
      && match ancestors with
         | [] => false
         | a :: up => matches p a up
         end
  | Descendant p c =>
      matches_compound c e
      && (fix some_ancestor (anc : list element) : bool :=
            match anc with
            | [] => false
            | a :: up => matches p a up || some_ancestor up
            end) ancestors
  end.

(** The elements of the subtree of [n] selected by [s], in document
    order; [after] are the siblings that follow [n]. *)
Fixpoint select_node (s : selector) (ancestors : list element)
         (n : node) (after : list node) : cheerio :=
  match n with
  | Elem name attribs children =>
      (if matches s (name, attribs) ancestors then [Cursor n after] else [])
      ++ (fix among (ks : list node) : cheerio :=
            match ks with
            | [] => []
            | k :: ks' =>
                select_node s ((name, attribs) :: ancestors) k ks'
                ++ among ks'
            end) children
  | _ => []
  end.

Fixpoint select_nodes (s : selector) (ancestors : list element)
         (ns : list node) : cheerio :=
  match ns with
  | [] => []
  | n :: ns' => select_node s ancestors n ns' ++ select_nodes s ancestors ns'
  end.

(** [$(selector)] on a loaded document. *)
Definition select (s : selector) (document : list node) : cheerio :=
  select_nodes s [] document.

(** The positional filter [:first]. *)
Definition first (sel : cheerio) : cheerio := firstn 1 sel.

(** The first element among [ns], with the siblings after it. *)
Fixpoint first_element (ns : list node) : cheerio :=
  match ns with
  | [] => []
  | Elem name attribs children :: ns' =>
      [Cursor (Elem name attribs children) ns']
  | _ :: ns' => first_element ns'
  end.

(** [sel.next()]: the next element sibling of each element. *)
Definition next (sel : cheerio) : cheerio :=
  flat_map (fun c => first_element (following c)) sel.

(** The element children of a node named [t]. *)
Fixpoint elements_named (t : string) (ns : list node) : cheerio :=
  match ns with
  | [] => []
  | Elem name attribs children :: ns' =>
      (if name =? t then [Cursor (Elem name attribs children) ns'] else [])
      ++ elements_named t ns'
  | _ :: ns' => elements_named t ns'
  end.

Definition children_of (n : node) : list node :=
  match n with
  | Elem _ _ children => children
  | _ => []
  end.

(** [sel.children(t)] *)
Definition children (t : string) (sel : cheerio) : cheerio :=
  flat_map (fun c => elements_named t (children_of (cur c))) sel.

End Dom.
Import Dom.

(* ===================================================================== *)
(** ** Promises *)
(* ===================================================================== *)

Inductive error : Type :=
| AxiosError   (* the request failed *)
| TypeError    (* a method was called on [undefined] *).

(** The state of a promise. *)
Inductive promise (A : Type) : Type :=
| Fulfilled (value : A)
| Rejected (reason : error)
| Pending.
Arguments Fulfilled {A} value.
Arguments Rejected {A} reason.
Arguments Pending {A}.

Module Async.
Section Async.

Variable world : Type.

(** An asynchronous computation over the network state. *)
Definition async (A : Type) : Type := world -> promise A * world.

Definition ret {A} (a : A) : async A := fun w => (Fulfilled a, w).

Definition throw {A} (e : error) : async A := fun w => (Rejected e, w).

Definition stuck {A} : async A := fun w => (Pending, w).

(** [const x = await m; k x]: a rejection of [m] is not caught. *)
Definition await {A B} (m : async A) (k : A -> async B) : async B :=
  fun w =>
    match m w with
    | (Fulfilled a, w') => k a w'
    | (Rejected e, w') => (Rejected e, w')
    | (Pending, w') => (Pending, w')
    end.

(** The state of [Promise.all([p, ...ps])] from the states of [p] and of
    [Promise.all(ps)]: rejected as soon as one is, fulfilled with the
    values in the order of the promises when all are. *)
Definition all_with {A} (p : promise A) (ps : promise (list A))
  : promise (list A) :=
  match p, ps with
  | Rejected e, _ => Rejected e
  | _, Rejected e => Rejected e
  | Pending, _ => Pending
  | _, Pending => Pending
  | Fulfilled a, Fulfilled l => Fulfilled (a :: l)
  end.

Fixpoint Promise_all {A} (ps : list (async A)) : async (list A) :=
  fun w =>
    match ps with
    | [] => (Fulfilled [], w)
    | p :: ps' =>
        let (r, w1) := p w in
        let (rs, w2) := Promise_all ps' w1 in
        (all_with r rs, w2)
    end.

End Async.
End Async.
Import Async.

Arguments ret {world A} a.
Arguments throw {world A} e.
Arguments stuck {world A}.
Arguments await {world A B} m k.
Arguments Promise_all {world A} ps.

Notation "x <- m ;; k" := (await m (fun x => k))
  (at level 100, m at next level, right associativity).

(* ===================================================================== *)
(** ** The script *)
(* ===================================================================== *)

Definition HOMEPAGE : string := "https://legacy-of-the-dragonborn.fandom.com".

(** A simple class keeping track of a book and its locations. *)
Record Book : Type := new_Book { title : string; locations : list string }.

Module Scrape.

(** *** The extraction of [getBook], lines 33 to 46 *)

(** [$("span.mw-page-title-main").text().trim()] *)
Definition page_title (document : list node) : string :=
  trim (text (select (Simple (tag_class "span" "mw-page-title-main"))
                     document)).

(** [$("div.mw-parser-output > h2:first")] *)
Definition first_heading (document : list node) : cheerio :=
  first (select (Child (Simple (tag_class "div" "mw-parser-output"))
                       (tag "h2")) document).

(** The block the locations are read from: the element after the first
    heading, and one further for Treasure Map XXI. *)
Definition page_acquisition (document : list node) : cheerio :=
  let title := page_title document in
  let acquisition := next (first_heading document) in
  if title =? "Treasure Map XXI" then next acquisition else acquisition.

(** case 1: multiple locations in a list; case 2: a single location *)
Definition acquisition_locations (acquisition : cheerio) : list string :=
  let locations :=
    map (fun li => trim (text [li])) (children "li" acquisition) in
  if (length locations =? 0)%nat
  then [trim (text acquisition)]
  else locations.

Definition page_locations (document : list node) : list string :=
  acquisition_locations (page_acquisition document).

(** The test of line 49. *)
Definition must_repeat (title : string) (locations : list string) : bool :=
  (title =? "") || (length locations =? 0)%nat.

(** *** The tests on the links, lines 70, 96, 122 and 147 *)

Definition is_book (href : string) : bool :=
  startsWith href "/wiki/" && negb (includes href ".").

Definition is_book_third_floor (href : string) : bool :=
  startsWith href "/wiki/" && negb (includes href ".")
  && negb (includes href "/wiki/Treasure_Hunter").

(** The loop over the anchors of a listing: the addresses [getBook] is
    called with, in the order of the anchors.  An anchor without [href]
    makes [href.startsWith] throw. *)
Fixpoint book_links (test : string -> bool) (anchors : cheerio)
  : option (list string) :=
  match anchors with
  | [] => Some []
  | a :: rest =>
      match attr "href" (cur a) with
      | None => None
      | Some href =>
          match book_links test rest with
          | None => None
          | Some links =>
              Some (if test href
                    then String.append HOMEPAGE href :: links
                    else links)
          end
      end
  end.

(** The anchors [getBookshelf] visits: for each [li] of the list, each
    [a] directly under it. *)
Definition bookshelf_anchors (ol : cheerio) : cheerio :=
  flat_map (fun li => children "a" [li]) (children "li" ol).

(** [$("div.mw-parser-output > ol").toArray().slice(0, 8)] *)
Definition bookshelves (document : list node) : list cursor :=
  firstn 8 (select (Child (Simple (tag_class "div" "mw-parser-output"))
                          (tag "ol")) document).

(** [$("table.article-table a")] *)
Definition table_anchors (document : list node) : cheerio :=
  select (Descendant (Simple (tag_class "table" "article-table")) (tag "a"))
         document.

Definition firstFloorURL : string :=
  "https://legacy-of-the-dragonborn.fandom.com/wiki/Library_1st_Floor_(SSE)".
Definition secondFloorURL : string :=
  "https://legacy-of-the-dragonborn.fandom.com/wiki/Library_2nd_Floor_(SSE)".
Definition thirdFloorURL : string :=
  "https://legacy-of-the-dragonborn.fandom.com/wiki/Library_3rd_Floor_(SSE)".

Section Network.

Variable world : Type.

(** [axios.get(url, {responseType: "text"})], resolved with the text. *)
Variable axios_get : string -> async world string.

(** [cheerio.load]: never throws. *)
Variable cheerio_load : string -> list node.

(** Gets a book from its page. *)
Fixpoint getBook (fuel : nat) (url : string) : async world Book :=
  match fuel with
  | O => stuck
  | S fuel' =>
      data <- axios_get url ;;
      let document := cheerio_load data in
      let title := page_title document in
      let locations := page_locations document in
      if must_repeat title locations
      then getBook fuel' url
      else ret (new_Book title locations)
  end.

(** The promise of a list of links: [Promise.all] of the [getBook]
    calls, or the rejection of the loop that threw. *)
Definition books_of (fuel : nat) (links : option (list string))
  : async world (list Book) :=
  match links with
  | None => throw TypeError
  | Some urls => Promise_all (map (getBook fuel) urls)
  end.

(** Gets all the books in a bookshelf. *)
Definition getBookshelf (fuel : nat) (ol : cheerio)
  : async world (list Book) :=
  books_of fuel (book_links is_book (bookshelf_anchors ol)).

(** The books of the tables of a floor. *)
Definition getTables (fuel : nat) (test : string -> bool)
           (document : list node) : async world (list Book) :=
  books_of fuel (book_links test (table_anchors document)).

(** Get all the books in the first floor of the library. *)
Fixpoint getFirstFloor (fuel : nat) : async world (list Book) :=
  match fuel with
  | O => stuck
  | S fuel' =>
      firstFloorResponse <- axios_get firstFloorURL ;;
      let document := cheerio_load firstFloorResponse in
      let ols := bookshelves document in
      shelves <-
        Promise_all (map (fun ol => getBookshelf fuel [ol]) ols) ;;
      let bookshelf_books := concat shelves in
      table_books <- getTables fuel is_book document ;;
      let all_books := bookshelf_books ++ table_books in
      if (length all_books =? 0)%nat
      then getFirstFloor fuel'
      else ret all_books
  end.

(** Get all the books in the second floor of the library. *)
Fixpoint getSecondFloor (fuel : nat) : async world (list Book) :=
  match fuel with
  | O => stuck
  | S fuel' =>
      secondFloorResponse <- axios_get secondFloorURL ;;
      let document := cheerio_load secondFloorResponse in
      books <- getTables fuel is_book document ;;
      if (length books =? 0)%nat
      then getSecondFloor fuel'
      else ret books
  end.

(** Get all the books in the third floor of the library. *)
Fixpoint getThirdFloor (fuel : nat) : async world (list Book) :=
  match fuel with
  | O => stuck
  | S fuel' =>
      thirdFloorResponse <- axios_get thirdFloorURL ;;
      let document := cheerio_load thirdFloorResponse in
      books <- getTables fuel is_book_third_floor document ;;
      if (length books =? 0)%nat
      then getThirdFloor fuel'
      else ret books
  end.

(** The driver; its value is the array handed to [JSON.stringify]. *)
Definition main (fuel : nat) : async world (list Book) :=
  firstFloor <- getFirstFloor fuel ;;
  secondFloor <- getSecondFloor fuel ;;
  thirdFloor <- getThirdFloor fuel ;;
  let allBooks := firstFloor ++ (secondFloor ++ thirdFloor) in
  ret allBooks.

End Network.
End Scrape.
Import Scrape.

(* ===================================================================== *)
(** ** Fixtures: small sites the script is run on *)
(* ===================================================================== *)

Module Fixture.

(** A site: the tree of each page it serves, by address.  In the
    fixtures the text of a page is its address, and loading a text looks
    the tree up. *)
Definition site := list (string * list node).

Definition site_load (s : site) (data : string) : list node :=
  match lookup data s with
  | Some document => document
  | None => []
  end.

(** A network that serves [s] and fails on any other address; its state
    counts the requests. *)
Definition site_get (s : site) (url : string) : async nat string :=
  fun n =>
    match lookup url s with
    | Some _ => (Fulfilled url, S n)
    | None => (Rejected AxiosError, S n)
    end.

(** A network that answers the requests, whatever their address, with
    the answers of its state in turn: a text, or [None] for a request
    that fails; it fails when no answer is left. *)
Definition script_get (url : string)
  : async (list (option string)) string :=
  fun answers =>
    match answers with
    | [] => (Rejected AxiosError, [])
    | None :: answers' => (Rejected AxiosError, answers')
    | Some data :: answers' => (Fulfilled data, answers')
    end.

Definition page_heading (t : string) : node :=
  Elem "h1" [("class", "page-header__title")]
       [Elem "span" [("class", "mw-page-title-main")] [Text t]].

Definition content (kids : list node) : node :=
  Elem "div" [("class", "mw-content-ltr mw-parser-output")] kids.

Definition h2 (t : string) : node := Elem "h2" [] [Text t].
Definition p (t : string) : node := Elem "p" [] [Text t].
Definition li (t : string) : node := Elem "li" [] [Text t].
Definition a (href t : string) : node := Elem "a" [("href", href)] [Text t].

Definition article (t : string) (body : list node) : list node :=
  [Elem "html" []
     [Elem "head" [] [];
      Elem "body" [] [page_heading t; content body]]].

(** One location in a paragraph. *)
Definition argonian : list node :=
  article "The Lusty Argonian Maid"
    [p "A book."; h2 "Acquisition"; Text " "; p " Whiterun, Dragonsreach ";
     h2 "Notes"; p "None."].

(** Several locations in a list. *)
Definition gourmet : list node :=
  article " Uncommon Taste "
    [h2 "Acquisition"; Comment "list";
     Elem "ul" [] [li " Riften"; Text " "; li "Solitude, Blue Palace "];
     h2 "Notes"].

(** The layout of the page of Treasure Map XXI: one more element before
    the block of the locations. *)
Definition treasure_map : list node :=
  article "Treasure Map XXI"
    [h2 "Acquisition"; Elem "figure" [] [Text "map"]; Text " ";
     p "Inside a chest in the Deepholme."].

(** A page that did not load properly. *)
Definition blank : list node := [].

(** A page with a title and nothing under its heading. *)
Definition lost : list node := article "Lost Legends" [h2 "Acquisition"].

Definition shelf (links : list node) : node :=
  Elem "ol" [] (map (fun l => Elem "li" [] [l]) links).

Definition table (cells : list node) : node :=
  Elem "table" [("class", "article-table sortable")]
       [Elem "tbody" [] [Elem "tr" [] (map (fun c => Elem "td" [] [c]) cells)]].

Definition first_floor : list node :=
  article "Library 1st Floor"
    [shelf [a "/wiki/Argonian" "The Lusty Argonian Maid";
            a "/wiki/File:Shelf.png" "picture"];
     shelf [a "/wiki/Gourmet" "Uncommon Taste"];
     table [a "/wiki/Lost" "Lost Legends"; a "/index.php" "edit"]].

Definition second_floor : list node :=
  article "Library 2nd Floor" [table [a "/wiki/Gourmet" "Uncommon Taste"]].

Definition third_floor : list node :=
  article "Library 3rd Floor"
    [table [a "/wiki/Treasure_Hunter" "Treasure Hunter";
            a "/wiki/Treasure_Map_XXI" "Treasure Map XXI"]].

(** The anchors of the shelves of [first_floor], in a table. *)
Definition tabled_floor : list node :=
  article "Library"
    [table [a "/wiki/Gourmet" "Uncommon Taste";
            a "/wiki/File:Shelf.png" "picture";
            a "/wiki/Argonian" "The Lusty Argonian Maid"]].


(** A second floor whose table has no link to an article. *)
Definition bare_floor : list node :=
  article "Library 2nd Floor" [table [a "/wiki/File:Plan.png" "plan"]].

Definition articles : site :=
  [(String.append HOMEPAGE "/wiki/Argonian", argonian);
   (String.append HOMEPAGE "/wiki/Gourmet", gourmet);
   (String.append HOMEPAGE "/wiki/Lost", lost);
   (String.append HOMEPAGE "/wiki/Treasure_Map_XXI", treasure_map)].

Definition library : site :=
  [(firstFloorURL, first_floor); (secondFloorURL, second_floor);
   (thirdFloorURL, third_floor)] ++ articles.

Definition bare_library : site :=
  [(firstFloorURL, first_floor); (secondFloorURL, bare_floor);
   (thirdFloorURL, third_floor)] ++ articles.

(** A second floor with an anchor that has no href in its table. *)
Definition broken_floor : list node :=
  article "Library 2nd Floor"
    [table [a "/wiki/Gourmet" "Uncommon Taste";
            Elem "a" [("name", "top")] [Text "top"]]].

Definition broken_library : site :=
  [(firstFloorURL, first_floor); (secondFloorURL, broken_floor);
   (thirdFloorURL, third_floor)] ++ articles.

(** A site that serves the three floors and none of the articles. *)
Definition closed_library : site :=
  [(firstFloorURL, first_floor); (secondFloorURL, second_floor);
   (thirdFloorURL, third_floor)].

(** The texts a flaky network serves, and their trees. *)
Definition texts : site :=
  [("blank", blank); ("argonian", argonian); ("lost", lost)].

End Fixture.

(* ===================================================================== *)
(** ** Notions the statements use *)
(* ===================================================================== *)

(** The [href] of an anchor of a selection. *)
Definition href_of (c : cursor) : option string := attr "href" (cur c).

(** Nodes that [.next()] steps over. *)
Definition no_element (ns : list node) : Prop :=
  Forall (fun n => match n with Elem _ _ _ => False | _ => True end) ns.

Definition is_element (n : node) : Prop :=
  match n with Elem _ _ _ => True | _ => False end.

(** The book a page that passes the test of line 49 is turned into. *)
Definition book_of_page (document : list node) : Book :=
  new_Book (page_title document) (page_locations document).

(** The invariant the data model asks of a record: a title that is not
    empty, at least one location, and no empty location. *)
Definition record_invariant (b : Book) : Prop :=
  title b <> "" /\ 1 <= length (locations b)
  /\ Forall (fun l => l <> "") (locations b).

(** What is left of it on the books [getBook] returns. *)
Definition returned_invariant (b : Book) : Prop :=
  title b <> "" /\ 1 <= length (locations b).

(** A link the filter of lines 70, 96 and 122 lets through. *)
Definition article_link (url : string) : Prop :=
  exists href, url = String.append HOMEPAGE href
               /\ startsWith href "/wiki/" = true
               /\ includes href "." = false.

Inductive floor : Type := FirstFloor | SecondFloor | ThirdFloor.

(** The loop of [book_links], read on the [href]s of the anchors. *)
Fixpoint links_of_hrefs (test : string -> bool) (hrefs : list (option string))
  : option (list string) :=
  match hrefs with
  | [] => Some []
  | None :: _ => None
  | Some href :: rest =>
      match links_of_hrefs test rest with
      | None => None
      | Some links =>
          Some (if test href then String.append HOMEPAGE href :: links
                else links)
      end
  end.

(** The links of several loops, in their order, unless one threw. *)
Fixpoint gather (parts : list (option (list string))) : option (list string) :=
  match parts with
  | [] => Some []
  | None :: _ => None
  | Some links :: rest =>
      match gather rest with
      | None => None
      | Some more => Some (links ++ more)
      end
  end.

(** The links [getBookshelf] collects from each of [shelves] in turn. *)
Definition shelf_links (shelves : list cursor) : option (list string) :=
  gather (map (fun ol => book_links is_book (bookshelf_anchors [ol])) shelves).

(** The links the loop over the tables of a page collects. *)
Definition table_links (test : string -> bool) (document : list node)
  : option (list string) :=
  book_links test (table_anchors document).

(** The links a crawler collects from its page, in the order in which it
    calls [getBook] on them. *)
Definition floor_links (f : floor) (document : list node)
  : option (list string) :=
  match f with
  | FirstFloor =>
      gather [shelf_links (bookshelves document); table_links is_book document]
  | SecondFloor => table_links is_book document
  | ThirdFloor => table_links is_book_third_floor document
  end.

Definition floorURL (f : floor) : string :=
  match f with
  | FirstFloor => firstFloorURL
  | SecondFloor => secondFloorURL
  | ThirdFloor => thirdFloorURL
  end.



Section Crawlers.

Variable world : Type.
Variable axios_get : string -> async world string.
Variable cheerio_load : string -> list node.

(** Every request for [url] is answered with [data]. *)
Definition serves (url data : string) : Prop :=
  forall w, exists w', axios_get url w = (Fulfilled data, w').

(** The article at [url] loads properly at every request: the text
    [page url], whose title is not empty. *)
Definition valid_first_time (page : string -> string) (url : string)
  : Prop :=
  serves url (page url) /\ page_title (cheerio_load (page url)) <> "".

(** The book the article at [url] is turned into. *)
Definition book_at (page : string -> string) (url : string) : Book :=
  book_of_page (cheerio_load (page url)).

Definition crawler (f : floor) (fuel : nat) : async world (list Book) :=
  match f with
  | FirstFloor => getFirstFloor world axios_get cheerio_load fuel
  | SecondFloor => getSecondFloor world axios_get cheerio_load fuel
  | ThirdFloor => getThirdFloor world axios_get cheerio_load fuel
  end.

(** One pass of a crawler, from the fetch of its page to the books it
    tests for emptiness (lines 86 to 101, 116 to 126, 141 to 151). *)
Definition crawl_once (f : floor) (fuel : nat) : async world (list Book) :=
  match f with
  | FirstFloor =>
      firstFloorResponse <- axios_get firstFloorURL ;;
      let document := cheerio_load firstFloorResponse in
      shelves <-
        Promise_all
          (map (fun ol => getBookshelf world axios_get cheerio_load fuel [ol])
               (bookshelves document)) ;;
      table_books <-
        getTables world axios_get cheerio_load fuel is_book document ;;
      ret (concat shelves ++ table_books)
  | SecondFloor =>
      secondFloorResponse <- axios_get secondFloorURL ;;
      getTables world axios_get cheerio_load fuel is_book
                (cheerio_load secondFloorResponse)
  | ThirdFloor =>
      thirdFloorResponse <- axios_get thirdFloorURL ;;
      getTables world axios_get cheerio_load fuel is_book_third_floor
                (cheerio_load thirdFloorResponse)
  end.

End Crawlers.

Arguments serves {world} axios_get url data.
Arguments valid_first_time {world} axios_get cheerio_load page url.
Arguments crawler {world} axios_get cheerio_load f fuel.
Arguments crawl_once {world} axios_get cheerio_load f fuel.
Arguments getBook {world} axios_get cheerio_load fuel url.
Arguments getBookshelf {world} axios_get cheerio_load fuel ol.
Arguments getTables {world} axios_get cheerio_load fuel test document.
Arguments books_of {world} axios_get cheerio_load fuel links.
Arguments getFirstFloor {world} axios_get cheerio_load fuel.
Arguments getSecondFloor {world} axios_get cheerio_load fuel.
Arguments getThirdFloor {world} axios_get cheerio_load fuel.
Arguments main {world} axios_get cheerio_load fuel.

(** The first and the last character of a string. *)
Definition first_char (s : string) : option ascii :=
  match s with
  | EmptyString => None
  | String c _ => Some c
  end.

Fixpoint last_char (s : string) : option ascii :=
  match s with
  | EmptyString => None
  | String c EmptyString => Some c
  | String _ s' => last_char s'
  end.

(** A string with no white space at either end. *)
Definition trimmed (s : string) : Prop :=
  (forall c, first_char s = Some c -> is_space c = false)
  /\ (forall c, last_char s = Some c -> is_space c = false).

(** No request for [url] is ever answered. *)
Definition unreachable {world : Type}
           (axios_get : string -> async world string) (url : string) : Prop :=
  forall w, exists e w', axios_get url w = (Rejected e, w').

(** The links of the first [Promise.all] a crawler waits for: those of the
    shelves on the first floor, those of the tables on the others. *)
Definition first_batch (f : floor) (document : list node)
  : option (list string) :=
  match f with
  | FirstFloor => shelf_links (bookshelves document)
  | SecondFloor => table_links is_book document
  | ThirdFloor => table_links is_book_third_floor document
  end.

(** [b] is the book of a page with a title that some request for [url] was
    answered with. *)
Definition read_from {world : Type}
           (axios_get : string -> async world string)
           (cheerio_load : string -> list node) (url : string) (b : Book)
  : Prop :=
  exists w data w',
    axios_get url w = (Fulfilled data, w')
    /\ page_title (cheerio_load data) <> ""
    /\ b = book_of_page (cheerio_load data).

(* ===================================================================== *)
(** ** Strings *)
(* ===================================================================== *)

Lemma prefix_refl (s : string) : String.prefix s s = true.
Proof.
  induction s as [|c s IH]; simpl; [reflexivity|].
  destruct (ascii_dec c c); [assumption | congruence].
Qed.

Lemma includes_refl (s : string) : includes s s = true.
Proof. destruct s; simpl; [reflexivity|]. rewrite prefix_refl.
       destruct (ascii_dec a a); [reflexivity | congruence]. Qed.

Lemma append_inj_r (p s t : string) :
  String.append p s = String.append p t -> s = t.
Proof. induction p as [|c p IH]; simpl; intros H; [assumption|].
       injection H as H. auto. Qed.

Lemma eqb_empty (s : string) : (s =? "") = true <-> s = "".
Proof. apply String.eqb_eq. Qed.

(* ===================================================================== *)
(** ** Cheerio *)
(* ===================================================================== *)

Lemma first_element_skip (junk : list node) (e : node) (rest : list node) :
  no_element junk -> is_element e ->
  first_element (junk ++ e :: rest) = [Cursor e rest].
Proof.
  intros Hj He. induction Hj as [|n junk Hn _ IH]; simpl.
  - destruct e; simpl in He; try contradiction; reflexivity.
  - destruct n; try contradiction; exact IH.
Qed.

Lemma next_one (n : node) (after : list node) :
  next [Cursor n after] = first_element after.
Proof. unfold next; simpl. apply app_nil_r. Qed.

Lemma next_none : next [] = [].
Proof. reflexivity. Qed.

(* ===================================================================== *)
(** ** The extraction *)
(* ===================================================================== *)

Lemma acquisition_locations_length (acquisition : cheerio) :
  1 <= length (acquisition_locations acquisition).
Proof.
  unfold acquisition_locations.
  destruct (Nat.eqb_spec
              (length (map (fun li => trim (text [li]))
                           (children "li" acquisition))) 0) as [E|E];
    simpl; lia.
Qed.

Lemma must_repeat_title (document : list node) :
  must_repeat (page_title document) (page_locations document)
  = (page_title document =? "").
Proof.
  unfold must_repeat, page_locations.
  pose proof (acquisition_locations_length (page_acquisition document)) as H.
  destruct (Nat.eqb_spec
              (length (acquisition_locations (page_acquisition document))) 0);
    [lia | apply orb_false_r].
Qed.

(* ===================================================================== *)
(** ** [getBook] *)
(* ===================================================================== *)

Section GetBook.

Variable world : Type.
Variable axios_get : string -> async world string.
Variable cheerio_load : string -> list node.

#[local] Abbreviation getBook := (Scrape.getBook axios_get cheerio_load).

Lemma getBook_rejected fuel url w e w1 :
  axios_get url w = (Rejected e, w1) ->
  getBook (S fuel) url w = (Rejected e, w1).
Proof. intros H. simpl. unfold await. rewrite H. reflexivity. Qed.

Lemma getBook_repeats fuel url w data w1 :
  axios_get url w = (Fulfilled data, w1) ->
  page_title (cheerio_load data) = "" ->
  getBook (S fuel) url w = getBook fuel url w1.
Proof.
  intros H T. simpl. unfold await. rewrite H.
  rewrite must_repeat_title, T. reflexivity.
Qed.

Lemma getBook_returns fuel url w data w1 :
  axios_get url w = (Fulfilled data, w1) ->
  page_title (cheerio_load data) <> "" ->
  getBook (S fuel) url w = (Fulfilled (book_of_page (cheerio_load data)), w1).
Proof.
  intros H T. simpl. unfold await. rewrite H.
  rewrite must_repeat_title.
  destruct (String.eqb_spec (page_title (cheerio_load data)) "");
    [contradiction | reflexivity].
Qed.

(** A book that is returned was read from a page some request was
    answered with, and that page has a title. *)
Lemma getBook_fulfilled fuel : forall url w b w',
  getBook fuel url w = (Fulfilled b, w') ->
  exists data w0,
    axios_get url w0 = (Fulfilled data, w')
    /\ page_title (cheerio_load data) <> ""
    /\ b = book_of_page (cheerio_load data).
Proof.
  induction fuel as [|fuel IH]; intros url w b w' H.
  - discriminate H.
  - destruct (axios_get url w) as [[data|e|] w1] eqn:G.
    + destruct (String.eqb_spec (page_title (cheerio_load data)) "") as [T|T].
      * rewrite (getBook_repeats _ _ _ _ _ G T) in H. eauto.
      * rewrite (getBook_returns _ _ _ _ _ G T) in H.
        injection H as <- <-. eauto.
    + rewrite (getBook_rejected _ _ _ _ _ G) in H. discriminate H.
    + simpl in H. unfold await in H. rewrite G in H. discriminate H.
Qed.

(** A rejection of [getBook] is the rejection of one of its requests. *)
Lemma getBook_rejection fuel : forall url w e w',
  getBook fuel url w = (Rejected e, w') ->
  exists w0, axios_get url w0 = (Rejected e, w').
Proof.
  induction fuel as [|fuel IH]; intros url w e w' H.
  - discriminate H.
  - destruct (axios_get url w) as [[data|e1|] w1] eqn:G.
    + destruct (String.eqb_spec (page_title (cheerio_load data)) "") as [T|T].
      * rewrite (getBook_repeats _ _ _ _ _ G T) in H. eauto.
      * rewrite (getBook_returns _ _ _ _ _ G T) in H. discriminate H.
    + rewrite (getBook_rejected _ _ _ _ _ G) in H.
      injection H as <- <-. eauto.
    + simpl in H. unfold await in H. rewrite G in H. discriminate H.
Qed.

End GetBook.

(* ===================================================================== *)
(** ** The records [getBook] returns *)
(* ===================================================================== *)

Import Fixture.

(** C1, as amended: every Book returned by getBook has a title that is not
    the empty string and a locations array with at least one element (the
    locations themselves may be empty strings). *)
Theorem getBook_returned_invariant {world : Type}
        (axios_get : string -> async world string)
        (cheerio_load : string -> list node)
        (fuel : nat) (url : string) (w : world) (b : Book) (w' : world) :
  getBook axios_get cheerio_load fuel url w = (Fulfilled b, w') ->
  returned_invariant b.
Proof.
  intros H.
  destruct (getBook_fulfilled _ _ _ _ _ _ _ _ H) as (data & w0 & _ & T & ->).
  split; [exact T | apply acquisition_locations_length].
Qed.

Lemma getBook_returned_invariant_witness :
  getBook script_get (site_load texts) 3 "u" [Some "blank"; Some "argonian"]
  = (Fulfilled (new_Book "The Lusty Argonian Maid" ["Whiterun, Dragonsreach"]),
     [])
  /\ returned_invariant
       (new_Book "The Lusty Argonian Maid" ["Whiterun, Dragonsreach"]).
Proof.
  assert (H : getBook script_get (site_load texts) 3 "u"
                      [Some "blank"; Some "argonian"]
              = (Fulfilled (new_Book "The Lusty Argonian Maid"
                                     ["Whiterun, Dragonsreach"]), []))
    by (vm_compute; reflexivity).
  split; [exact H|].
  exact (getBook_returned_invariant script_get (site_load texts) 3 "u"
                                    [Some "blank"; Some "argonian"] _ [] H).
Defined.

(** C1 as stated fails: the page of the fixture that has a title and no
    block under its heading is turned into a Book whose only location is
    the empty string. *)
Lemma getBook_returns_empty_location :
  getBook (site_get library) (site_load library) 1
          (String.append HOMEPAGE "/wiki/Lost") 0
  = (Fulfilled (new_Book "Lost Legends" [""]), 1)
  /\ ~ record_invariant (new_Book "Lost Legends" [""]).
Proof.
  split; [vm_compute; reflexivity|].
  intros (_ & _ & F). inversion F as [|x l Hx _]. apply Hx. reflexivity.
Qed.

(** C2, as amended: a request that fails is not caught, getBook rejects
    with its error; a request answered with a page that has no title makes
    getBook start again for the same address, from the state the request
    left the network in; and getBook rejects in no other way than by the
    rejection of a request. *)
Theorem getBook_failures {world : Type}
        (axios_get : string -> async world string)
        (cheerio_load : string -> list node)
        (fuel : nat) (url : string) (w : world) :
  (forall e w1,
      axios_get url w = (Rejected e, w1) ->
      getBook axios_get cheerio_load (S fuel) url w = (Rejected e, w1))
  /\ (forall data w1,
         axios_get url w = (Fulfilled data, w1) ->
         page_title (cheerio_load data) = "" ->
         getBook axios_get cheerio_load (S fuel) url w
         = getBook axios_get cheerio_load fuel url w1)
  /\ (forall e w',
         getBook axios_get cheerio_load fuel url w = (Rejected e, w') ->
         exists w0, axios_get url w0 = (Rejected e, w')).
Proof.
  split; [|split].
  - intros e w1. apply getBook_rejected.
  - intros data w1. apply getBook_repeats.
  - intros e w'. apply getBook_rejection.
Qed.

Lemma getBook_failures_witness :
  getBook script_get (site_load texts) 1 "u" [None; Some "argonian"]
  = (Rejected AxiosError, [Some "argonian"])
  /\ getBook script_get (site_load texts) 3 "u" [Some "blank"; Some "argonian"]
     = getBook script_get (site_load texts) 2 "u" [Some "argonian"]
  /\ exists w0, script_get "u" w0 = (Rejected AxiosError, [Some "argonian"]).
Proof.
  split; [|split].
  - apply (proj1 (getBook_failures script_get (site_load texts) 0 "u"
                                   [None; Some "argonian"])).
    reflexivity.
  - apply (proj1 (proj2 (getBook_failures script_get (site_load texts) 2 "u"
                                          [Some "blank"; Some "argonian"]))
                 "blank").
    + reflexivity.
    + vm_compute. reflexivity.
  - apply (proj2 (proj2 (getBook_failures script_get (site_load texts) 1 "u"
                                          [None; Some "argonian"]))
                 AxiosError).
    reflexivity.
Defined.

(** C2 as stated fails: on a network whose first answer is a failure and
    whose second is a good page, getBook rejects with the error of the
    request, and no amount of fuel makes it return the Book. *)
Lemma getBook_surfaces_the_error :
  getBook script_get (site_load texts) 1 "u" [None; Some "argonian"]
  = (Rejected AxiosError, [Some "argonian"])
  /\ ~ (exists fuel b w',
          getBook script_get (site_load texts) fuel "u"
                  [None; Some "argonian"] = (Fulfilled b, w')).
Proof.
  split; [reflexivity|].
  intros (fuel & b & w' & H). destruct fuel as [|fuel]; discriminate H.
Qed.

(** C3: the locations getBook reads from a fetched page are the trimmed
    texts of the list items directly under the acquisition block, in the
    order of the document, when there are such items, and otherwise the
    one trimmed text of the whole block; they are the locations of the
    Book it returns for that page. *)
Theorem getBook_locations {world : Type}
        (axios_get : string -> async world string)
        (cheerio_load : string -> list node)
        (fuel : nat) (url : string) (w : world) (data : string) (w1 : world) :
  axios_get url w = (Fulfilled data, w1) ->
  let document := cheerio_load data in
  let acquisition := page_acquisition document in
  let items := children "li" acquisition in
  (items <> [] ->
   page_locations document = map (fun li => trim (text [li])) items)
  /\ (items = [] -> page_locations document = [trim (text acquisition)])
  /\ (page_title document <> "" ->
      getBook axios_get cheerio_load (S fuel) url w
      = (Fulfilled (new_Book (page_title document) (page_locations document)),
         w1)).
Proof.
  intros G document acquisition items. split; [|split].
  - intros Hitems. unfold page_locations, acquisition_locations.
    fold acquisition. fold items. rewrite length_map.
    destruct items; [contradiction | reflexivity].
  - intros Hitems. unfold page_locations, acquisition_locations.
    fold acquisition. fold items. rewrite Hitems. reflexivity.
  - intros T.
    exact (getBook_returns world axios_get cheerio_load fuel url w data w1 G T).
Qed.

Lemma getBook_locations_witness :
  page_locations gourmet = ["Riften"; "Solitude, Blue Palace"]
  /\ page_locations argonian = ["Whiterun, Dragonsreach"]
  /\ getBook (site_get library) (site_load library) 1
             (String.append HOMEPAGE "/wiki/Gourmet") 0
     = (Fulfilled (new_Book "Uncommon Taste"
                            ["Riften"; "Solitude, Blue Palace"]), 1).
Proof.
  pose proof (getBook_locations
                (site_get library) (site_load library) 0
                (String.append HOMEPAGE "/wiki/Gourmet") 0
                (String.append HOMEPAGE "/wiki/Gourmet") 1 eq_refl)
    as (Hlist & _ & Hbook).
  pose proof (getBook_locations
                (site_get library) (site_load library) 0
                (String.append HOMEPAGE "/wiki/Argonian") 0
                (String.append HOMEPAGE "/wiki/Argonian") 1 eq_refl)
    as (_ & Hone & _).
  split; [|split].
  - apply Hlist. vm_compute. discriminate.
  - apply Hone. vm_compute. reflexivity.
  - apply Hbook. vm_compute. discriminate.
Defined.

(** C4: the acquisition block is the second element sibling after the
    first second-level heading of the content when the title of the page
    is Treasure Map XXI, and the first element sibling after it for every
    other title. *)
Theorem acquisition_special_case (document : list node) :
  (page_title document = "Treasure Map XXI" ->
   page_acquisition document = next (next (first_heading document)))
  /\ (page_title document <> "Treasure Map XXI" ->
      page_acquisition document = next (first_heading document))
  /\ (forall h after skipped1 e1 skipped2 e2 rest,
         first_heading document = [Cursor h after] ->
         after = skipped1 ++ e1 :: skipped2 ++ e2 :: rest ->
         no_element skipped1 -> is_element e1 ->
         no_element skipped2 -> is_element e2 ->
         page_acquisition document
         = if page_title document =? "Treasure Map XXI"
           then [Cursor e2 rest]
           else [Cursor e1 (skipped2 ++ e2 :: rest)]).
Proof.
  unfold page_acquisition. split; [|split].
  - intros ->. reflexivity.
  - intros T.
    destruct (String.eqb_spec (page_title document) "Treasure Map XXI");
      [contradiction | reflexivity].
  - intros h after s1 e1 s2 e2 rest Hh -> H1 He1 H2 He2.
    rewrite Hh, next_one, (first_element_skip _ _ _ H1 He1).
    rewrite next_one, (first_element_skip _ _ _ H2 He2).
    reflexivity.
Qed.

Lemma acquisition_special_case_witness :
  page_acquisition treasure_map
  = [Cursor (p "Inside a chest in the Deepholme.") []]
  /\ page_locations treasure_map = ["Inside a chest in the Deepholme."]
  /\ page_acquisition argonian
     = [Cursor (p " Whiterun, Dragonsreach ") [h2 "Notes"; p "None."]]
  /\ page_acquisition treasure_map = next (next (first_heading treasure_map))
  /\ page_acquisition argonian = next (first_heading argonian).
Proof.
  destruct (acquisition_special_case treasure_map) as (Hmap & _ & Hlayout).
  destruct (acquisition_special_case argonian) as (_ & Hother & Hlayout').
  assert (E : page_acquisition treasure_map
              = [Cursor (p "Inside a chest in the Deepholme.") []]).
  { apply (Hlayout (h2 "Acquisition")
                   [Elem "figure" [] [Text "map"]; Text " ";
                    p "Inside a chest in the Deepholme."]
                   [] (Elem "figure" [] [Text "map"]) [Text " "]
                   (p "Inside a chest in the Deepholme.") []).
    - vm_compute. reflexivity.
    - reflexivity.
    - constructor.
    - exact I.
    - repeat constructor.
    - exact I. }
  split; [exact E|]. split; [unfold page_locations; rewrite E; reflexivity|].
  split; [|split].
  - apply (Hlayout' (h2 "Acquisition")
                    [Text " "; p " Whiterun, Dragonsreach "; h2 "Notes";
                     p "None."]
                    [Text " "] (p " Whiterun, Dragonsreach ") []
                    (h2 "Notes") [p "None."]).
    + vm_compute. reflexivity.
    + reflexivity.
    + repeat constructor.
    + exact I.
    + constructor.
    + exact I.
  - apply Hmap. vm_compute. reflexivity.
  - apply Hother. vm_compute. discriminate.
Defined.

(** C10: the fallback leaves at least one location, so the test on the
    number of locations never decides: getBook starts again on a fetched
    page exactly when the trimmed title of the page is the empty string;
    and a page with a title whose acquisition block has no list item and
    no text is turned into a Book whose one location is the empty
    string. *)
Theorem getBook_repeats_iff_no_title {world : Type}
        (axios_get : string -> async world string)
        (cheerio_load : string -> list node)
        (fuel : nat) (url : string) (w : world) (data : string) (w1 : world) :
  axios_get url w = (Fulfilled data, w1) ->
  let document := cheerio_load data in
  1 <= length (page_locations document)
  /\ (must_repeat (page_title document) (page_locations document) = true
      <-> page_title document = "")
  /\ (page_title document = "" ->
      getBook axios_get cheerio_load (S fuel) url w
      = getBook axios_get cheerio_load fuel url w1)
  /\ (page_title document <> "" ->
      getBook axios_get cheerio_load (S fuel) url w
      = (Fulfilled (book_of_page document), w1))
  /\ (page_title document <> "" ->
      children "li" (page_acquisition document) = [] ->
      trim (text (page_acquisition document)) = "" ->
      getBook axios_get cheerio_load (S fuel) url w
      = (Fulfilled (new_Book (page_title document) [""]), w1)).
Proof.
  intros G document. repeat split.
  - apply acquisition_locations_length.
  - rewrite must_repeat_title. apply eqb_empty.
  - rewrite must_repeat_title. apply eqb_empty.
  - intros T.
    exact (getBook_repeats world axios_get cheerio_load fuel url w data w1 G T).
  - intros T.
    exact (getBook_returns world axios_get cheerio_load fuel url w data w1 G T).
  - intros T Hitems Htext.
    rewrite (getBook_returns world axios_get cheerio_load fuel url w data w1 G T).
    unfold book_of_page, page_locations, acquisition_locations.
    fold document. rewrite Hitems, Htext. reflexivity.
Qed.

Lemma getBook_repeats_iff_no_title_witness :
  getBook script_get (site_load texts) 2 "u" [Some "blank"; Some "lost"]
  = getBook script_get (site_load texts) 1 "u" [Some "lost"]
  /\ getBook script_get (site_load texts) 1 "u" [Some "lost"]
     = (Fulfilled (new_Book "Lost Legends" [""]), []).
Proof.
  split.
  - apply (getBook_repeats_iff_no_title
             script_get (site_load texts) 1 "u" [Some "blank"; Some "lost"]
             "blank" [Some "lost"] eq_refl).
    vm_compute. reflexivity.
  - apply (getBook_repeats_iff_no_title
             script_get (site_load texts) 0 "u" [Some "lost"]
             "lost" [] eq_refl).
    + vm_compute. discriminate.
    + vm_compute. reflexivity.
    + vm_compute. reflexivity.
Defined.

(* ===================================================================== *)
(** ** The links *)
(* ===================================================================== *)

Lemma book_links_hrefs (test : string -> bool) (anchors : cheerio) :
  book_links test anchors = links_of_hrefs test (map href_of anchors).
Proof.
  induction anchors as [|a rest IH]; simpl; [reflexivity|].
  unfold href_of at 1. destruct (attr "href" (cur a)); [|reflexivity].
  rewrite IH. reflexivity.
Qed.

Lemma links_of_hrefs_none (test : string -> bool) (hrefs : list (option string)) :
  links_of_hrefs test hrefs = None <-> In None hrefs.
Proof.
  induction hrefs as [|[h|] rest IH]; simpl.
  - split; [discriminate | contradiction].
  - destruct (links_of_hrefs test rest).
    + split; [discriminate|]. intros [H|H]; [discriminate|].
      apply IH in H. discriminate.
    + split; [|reflexivity]. intros _. right. apply IH. reflexivity.
  - split; [auto | reflexivity].
Qed.

Lemma links_of_hrefs_in (test : string -> bool) :
  forall (hrefs : list (option string)) (links : list string),
    links_of_hrefs test hrefs = Some links ->
    forall url,
      In url links
      <-> exists href, In (Some href) hrefs /\ test href = true
                       /\ url = String.append HOMEPAGE href.
Proof.
  induction hrefs as [|[h|] rest IH]; simpl; intros links H url.
  - injection H as <-. split; [contradiction|]. intros (? & [] & _).
  - destruct (links_of_hrefs test rest) as [more|]; [|discriminate].
    injection H as <-. specialize (IH more eq_refl url).
    destruct (test h) eqn:T; simpl; rewrite IH; split.
    + intros [<-|(href & Hin & Ht & ->)]; eauto 6.
    + intros (href & [E|Hin] & Ht & ->); [injection E as ->; auto | eauto 6].
    + intros (href & Hin & Ht & ->). eauto 6.
    + intros (href & [E|Hin] & Ht & ->); [injection E as ->; congruence|].
      eauto 6.
  - discriminate.
Qed.



Lemma links_of_hrefs_app (test : string -> bool)
      (l1 l2 : list (option string)) :
  links_of_hrefs test (l1 ++ l2)
  = gather [links_of_hrefs test l1; links_of_hrefs test l2].
Proof.
  induction l1 as [|[h|] l1 IH]; simpl.
  - destruct (links_of_hrefs test l2); simpl; [|reflexivity].
    rewrite app_nil_r. reflexivity.
  - rewrite IH. simpl.
    destruct (links_of_hrefs test l1); simpl; [|reflexivity].
    destruct (links_of_hrefs test l2); simpl; [|reflexivity].
    destruct (test h); reflexivity.
  - reflexivity.
Qed.

(** The shelves of a page, taken one after the other, give the links of
    the one loop over all their anchors. *)
Lemma shelf_links_hrefs (shelves : list cursor) :
  shelf_links shelves
  = links_of_hrefs is_book
      (map href_of (flat_map (fun ol => bookshelf_anchors [ol]) shelves)).
Proof.
  unfold shelf_links. induction shelves as [|ol rest IH]; simpl;
    [reflexivity|].
  rewrite map_app, links_of_hrefs_app, IH, book_links_hrefs. simpl.
  destruct (links_of_hrefs is_book (map href_of (bookshelf_anchors [ol])));
    [|reflexivity].
  destruct (links_of_hrefs is_book
              (map href_of (flat_map (fun ol0 => bookshelf_anchors [ol0]) rest)));
    [|reflexivity].
  rewrite app_nil_r. reflexivity.
Qed.

Lemma gather_in (parts : list (option (list string))) :
  forall links, gather parts = Some links ->
  forall url, In url links
              <-> exists part, In (Some part) parts /\ In url part.
Proof.
  induction parts as [|[part|] rest IH]; simpl; intros links H url.
  - injection H as <-. split; [contradiction|]. intros (? & [] & _).
  - destruct (gather rest) as [more|]; [|discriminate].
    injection H as <-. rewrite in_app_iff, (IH more eq_refl url). split.
    + intros [Hin|(q & Hq & Hin)]; eauto.
    + intros (q & [E|Hq] & Hin); [injection E as ->; auto | eauto].
  - discriminate.
Qed.

Lemma is_book_link (href : string) :
  is_book href = true ->
  startsWith href "/wiki/" = true /\ includes href "." = false.
Proof.
  unfold is_book. intros H. apply andb_prop in H as [H1 H2].
  split; [exact H1 | apply negb_true_iff; exact H2].
Qed.

Lemma is_book_third_floor_link (href : string) :
  is_book_third_floor href = true ->
  is_book href = true /\ includes href "/wiki/Treasure_Hunter" = false.
Proof.
  unfold is_book_third_floor, is_book. intros H.
  apply andb_prop in H as [H1 H2].
  split; [exact H1 | apply negb_true_iff; exact H2].
Qed.

Lemma book_links_article (test : string -> bool) (anchors : cheerio)
      (links : list string) :
  (forall href, test href = true -> is_book href = true) ->
  book_links test anchors = Some links ->
  Forall article_link links.
Proof.
  intros Htest H. rewrite book_links_hrefs in H.
  apply Forall_forall. intros url Hin.
  apply (links_of_hrefs_in _ _ _ H) in Hin as (href & _ & Ht & ->).
  exists href. split; [reflexivity|]. apply is_book_link, Htest, Ht.
Qed.

Lemma floor_links_article (f : floor) (document : list node)
      (links : list string) :
  floor_links f document = Some links -> Forall article_link links.
Proof.
  destruct f; unfold floor_links, table_links.
  - intros H. apply Forall_forall. intros url Hin.
    apply (gather_in _ _ H) in Hin as (part & [E|[E|[]]] & Hin).
    + rewrite shelf_links_hrefs in E.
      apply (links_of_hrefs_in _ _ _ E) in Hin as (href & _ & Ht & ->).
      exists href. split; [reflexivity | apply is_book_link, Ht].
    + apply (book_links_article is_book _ _ (fun _ H => H)) in E.
      rewrite Forall_forall in E. auto.
  - apply (book_links_article is_book _ _ (fun _ H => H)).
  - apply book_links_article. intros href Ht.
    apply is_book_third_floor_link, Ht.
Qed.

(** C5: every link collected from a shelf, and every link collected from
    the shelves and tables of any of the three pages, is the home page
    followed by the href of one of the anchors, an href that starts with
    /wiki/ and holds no dot; so no href that holds a dot is ever
    collected. *)
Theorem collected_links_are_articles :
  (forall test anchors links url,
      test = is_book \/ test = is_book_third_floor ->
      book_links test anchors = Some links -> In url links ->
      exists href, In (Some href) (map href_of anchors)
                   /\ url = String.append HOMEPAGE href
                   /\ startsWith href "/wiki/" = true
                   /\ includes href "." = false)
  /\ (forall ol links,
         book_links is_book (bookshelf_anchors ol) = Some links ->
         Forall article_link links)
  /\ (forall f document links,
         floor_links f document = Some links -> Forall article_link links)
  /\ (forall f document links href,
         floor_links f document = Some links ->
         includes href "." = true ->
         ~ In (String.append HOMEPAGE href) links).
Proof.
  split; [|split; [|split]].
  - intros test anchors links url Htest H Hin.
    rewrite book_links_hrefs in H.
    apply (links_of_hrefs_in _ _ _ H) in Hin as (href & Hhref & Ht & ->).
    exists href. split; [exact Hhref|]. split; [reflexivity|].
    destruct Htest as [-> | ->].
    + apply is_book_link, Ht.
    + apply is_book_link. apply is_book_third_floor_link, Ht.
  - intros ol links. apply (book_links_article is_book _ _ (fun _ H => H)).
  - apply floor_links_article.
  - intros f document links href H Hdot Hin.
    pose proof (floor_links_article _ _ _ H) as Hall.
    rewrite Forall_forall in Hall.
    destruct (Hall _ Hin) as (href' & E & _ & Hnodot).
    apply append_inj_r in E. subst href'. congruence.
Qed.

Lemma collected_links_are_articles_witness :
  floor_links FirstFloor first_floor
  = Some [String.append HOMEPAGE "/wiki/Argonian";
          String.append HOMEPAGE "/wiki/Gourmet";
          String.append HOMEPAGE "/wiki/Lost"]
  /\ Forall article_link [String.append HOMEPAGE "/wiki/Argonian";
                          String.append HOMEPAGE "/wiki/Gourmet";
                          String.append HOMEPAGE "/wiki/Lost"]
  /\ ~ In (String.append HOMEPAGE "/wiki/File:Shelf.png")
          [String.append HOMEPAGE "/wiki/Argonian";
           String.append HOMEPAGE "/wiki/Gourmet";
           String.append HOMEPAGE "/wiki/Lost"]
  /\ Forall article_link [String.append HOMEPAGE "/wiki/Argonian"]
  /\ exists href,
       In (Some href) (map href_of (table_anchors third_floor))
       /\ String.append HOMEPAGE "/wiki/Treasure_Map_XXI"
          = String.append HOMEPAGE href
       /\ startsWith href "/wiki/" = true /\ includes href "." = false.
Proof.
  destruct collected_links_are_articles as (Hanchor & Hshelf & Hfloor & Hdot).
  assert (E : floor_links FirstFloor first_floor
              = Some [String.append HOMEPAGE "/wiki/Argonian";
                      String.append HOMEPAGE "/wiki/Gourmet";
                      String.append HOMEPAGE "/wiki/Lost"])
    by (vm_compute; reflexivity).
  split; [exact E|]. split; [exact (Hfloor _ _ _ E)|].
  split; [apply (Hdot _ _ _ "/wiki/File:Shelf.png" E); vm_compute; reflexivity|].
  split.
  - apply (Hshelf [Cursor (shelf [a "/wiki/Argonian" "The Lusty Argonian Maid";
                                  a "/wiki/File:Shelf.png" "picture"]) []]).
    vm_compute. reflexivity.
  - apply (Hanchor is_book_third_floor (table_anchors third_floor)
                   [String.append HOMEPAGE "/wiki/Treasure_Map_XXI"]).
    + right. reflexivity.
    + vm_compute. reflexivity.
    + left. reflexivity.
Defined.

(** C6: the link to /wiki/Treasure_Hunter is never among the links
    collected from the page of the third floor, nor is any link whose href
    holds that path, whatever anchors the tables of the page have. *)
Theorem treasure_hunter_excluded (document : list node) (links : list string) :
  floor_links ThirdFloor document = Some links ->
  ~ In (String.append HOMEPAGE "/wiki/Treasure_Hunter") links
  /\ (forall href,
         includes href "/wiki/Treasure_Hunter" = true ->
         ~ In (String.append HOMEPAGE href) links).
Proof.
  intros H.
  assert (Hall : forall href,
             includes href "/wiki/Treasure_Hunter" = true ->
             ~ In (String.append HOMEPAGE href) links).
  { intros href Hinc Hin. unfold floor_links, table_links in H.
    rewrite book_links_hrefs in H.
    apply (links_of_hrefs_in _ _ _ H) in Hin as (href' & _ & Ht & E).
    apply append_inj_r in E. subst href'.
    apply is_book_third_floor_link in Ht as [_ Ht]. congruence. }
  split; [|exact Hall]. apply Hall. apply includes_refl.
Qed.

Lemma treasure_hunter_excluded_witness :
  In (Some "/wiki/Treasure_Hunter") (map href_of (table_anchors third_floor))
  /\ floor_links ThirdFloor third_floor
     = Some [String.append HOMEPAGE "/wiki/Treasure_Map_XXI"]
  /\ ~ In (String.append HOMEPAGE "/wiki/Treasure_Hunter")
          [String.append HOMEPAGE "/wiki/Treasure_Map_XXI"].
Proof.
  assert (E : floor_links ThirdFloor third_floor
              = Some [String.append HOMEPAGE "/wiki/Treasure_Map_XXI"])
    by (vm_compute; reflexivity).
  split; [left; reflexivity|]. split; [exact E|].
  exact (proj1 (treasure_hunter_excluded third_floor _ E)).
Defined.








(* ===================================================================== *)
(** ** The crawlers and the driver *)
(* ===================================================================== *)

Section Floors.

Variable world : Type.
Variable axios_get : string -> async world string.
Variable cheerio_load : string -> list node.

#[local] Abbreviation crawl := (crawler axios_get cheerio_load).
#[local] Abbreviation pass := (crawl_once axios_get cheerio_load).
#[local] Abbreviation books_of := (books_of axios_get cheerio_load).

(** A crawler is one pass, then the test of the books, then itself. *)
Lemma crawler_unfold (f : floor) (fuel : nat) (w : world) :
  crawl f (S fuel) w
  = match pass f (S fuel) w with
    | (Fulfilled books, w') =>
        if (length books =? 0)%nat then crawl f fuel w'
        else (Fulfilled books, w')
    | (Rejected e, w') => (Rejected e, w')
    | (Pending, w') => (Pending, w')
    end.
Proof.
  destruct f; unfold crawler, crawl_once.
  - change (getFirstFloor axios_get cheerio_load (S fuel) w)
      with ((firstFloorResponse <- axios_get firstFloorURL ;;
             shelves <-
               Promise_all
                 (map (fun ol => getBookshelf axios_get cheerio_load
                                              (S fuel) [ol])
                      (bookshelves (cheerio_load firstFloorResponse))) ;;
             table_books <-
               getTables axios_get cheerio_load (S fuel) is_book
                         (cheerio_load firstFloorResponse) ;;
             if (length (concat shelves ++ table_books) =? 0)%nat
             then getFirstFloor axios_get cheerio_load fuel
             else ret (concat shelves ++ table_books)) w).
    unfold await, ret.
    destruct (axios_get firstFloorURL w) as [[data|e|] w1]; try reflexivity.
    destruct (Promise_all _ w1) as [[shelves|e|] w2]; try reflexivity.
    destruct (getTables _ _ _ _ _ w2) as [[table_books|e|] w3];
      try reflexivity.
    destruct (length (concat shelves ++ table_books) =? 0)%nat; reflexivity.
  - change (getSecondFloor axios_get cheerio_load (S fuel) w)
      with ((secondFloorResponse <- axios_get secondFloorURL ;;
             books <-
               getTables axios_get cheerio_load (S fuel) is_book
                         (cheerio_load secondFloorResponse) ;;
             if (length books =? 0)%nat
             then getSecondFloor axios_get cheerio_load fuel
             else ret books) w).
    unfold await, ret.
    destruct (axios_get secondFloorURL w) as [[data|e|] w1]; try reflexivity.
    destruct (getTables _ _ _ _ _ w1) as [[books|e|] w2]; try reflexivity.
    destruct (length books =? 0)%nat; reflexivity.
  - change (getThirdFloor axios_get cheerio_load (S fuel) w)
      with ((thirdFloorResponse <- axios_get thirdFloorURL ;;
             books <-
               getTables axios_get cheerio_load (S fuel) is_book_third_floor
                         (cheerio_load thirdFloorResponse) ;;
             if (length books =? 0)%nat
             then getThirdFloor axios_get cheerio_load fuel
             else ret books) w).
    unfold await, ret.
    destruct (axios_get thirdFloorURL w) as [[data|e|] w1]; try reflexivity.
    destruct (getTables _ _ _ _ _ w1) as [[books|e|] w2]; try reflexivity.
    destruct (length books =? 0)%nat; reflexivity.
Qed.

Lemma crawler_restarts (f : floor) (fuel : nat) (w w' : world) :
  pass f (S fuel) w = (Fulfilled [], w') ->
  crawl f (S fuel) w = crawl f fuel w'.
Proof. intros H. rewrite crawler_unfold, H. reflexivity. Qed.

Lemma crawler_returns (f : floor) (fuel : nat) (w w' : world)
      (books : list Book) :
  pass f (S fuel) w = (Fulfilled books, w') ->
  books <> [] ->
  crawl f (S fuel) w = (Fulfilled books, w').
Proof.
  intros H Hne. rewrite crawler_unfold, H.
  destruct books; [contradiction | reflexivity].
Qed.

Lemma crawler_not_empty (f : floor) (fuel : nat) :
  forall w books w',
    crawl f fuel w = (Fulfilled books, w') -> books <> [].
Proof.
  induction fuel as [|fuel IH]; intros w books w' H.
  - destruct f; discriminate H.
  - rewrite crawler_unfold in H.
    destruct (pass f (S fuel) w) as [[bs|e|] w1]; try discriminate H.
    destruct bs as [|b bs]; simpl in H.
    + exact (IH _ _ _ H).
    + injection H as <- _. discriminate.
Qed.

(** *** Pages that load properly *)

Variable page : string -> string.

#[local] Abbreviation valid :=
  (valid_first_time axios_get cheerio_load page).
#[local] Abbreviation book_at := (book_at cheerio_load page).

Lemma getBook_first_time (fuel : nat) (url : string) :
  valid url ->
  forall w, exists w',
    getBook axios_get cheerio_load (S fuel) url w
    = (Fulfilled (book_at url), w').
Proof.
  intros [Hs Ht] w. destruct (Hs w) as [w' G]. exists w'.
  exact (getBook_returns world axios_get cheerio_load fuel url w _ w' G Ht).
Qed.

Lemma books_of_valid (fuel : nat) (urls : list string) :
  (forall url, In url urls -> valid url) ->
  forall w, exists w',
    books_of (S fuel) (Some urls) w = (Fulfilled (map book_at urls), w').
Proof.
  unfold Scrape.books_of.
  induction urls as [|url urls IH]; intros Hv w.
  - exists w. reflexivity.
  - destruct (getBook_first_time fuel url (Hv url (or_introl eq_refl)) w)
      as [w1 H1].
    destruct (IH (fun u Hu => Hv u (or_intror Hu)) w1) as [w2 H2].
    exists w2. cbn [map Promise_all]. rewrite H1, H2. reflexivity.
Qed.

Lemma shelves_valid (fuel : nat) (shelves : list cursor) :
  forall links,
    shelf_links shelves = Some links ->
    (forall url, In url links -> valid url) ->
    forall w, exists w' books,
      Promise_all
        (map (fun ol => getBookshelf axios_get cheerio_load (S fuel) [ol])
             shelves) w
      = (Fulfilled books, w')
      /\ concat books = map book_at links.
Proof.
  unfold shelf_links.
  induction shelves as [|ol rest IH]; intros links H Hv w.
  - injection H as <-. exists w, []. split; reflexivity.
  - cbn [map gather] in H.
    destruct (book_links is_book (bookshelf_anchors [ol])) as [l|] eqn:El;
      [|discriminate].
    destruct (gather _) as [more|] eqn:Em; [|discriminate].
    injection H as <-.
    destruct (books_of_valid fuel l
                (fun u Hu => Hv u (proj2 (in_app_iff _ _ _) (or_introl Hu))) w)
      as [w1 H1].
    destruct (IH more eq_refl
                 (fun u Hu => Hv u (proj2 (in_app_iff _ _ _) (or_intror Hu)))
                 w1)
      as (w2 & books & H2 & Hc).
    exists w2, (map book_at l :: books). split.
    + cbn [map Promise_all]. unfold getBookshelf at 1. rewrite El, H1, H2.
      reflexivity.
    + cbn [concat]. rewrite Hc, map_app. reflexivity.
Qed.

Lemma crawl_once_valid (f : floor) (fuel : nat) (data : string)
      (links : list string) :
  serves axios_get (floorURL f) data ->
  floor_links f (cheerio_load data) = Some links ->
  (forall url, In url links -> valid url) ->
  forall w, exists w',
    pass f (S fuel) w = (Fulfilled (map book_at links), w').
Proof.
  intros Hs Hl Hv w. destruct (Hs w) as [w1 G].
  destruct f; unfold crawl_once, floor_links, floorURL in *;
    unfold await; rewrite G.
  - cbn [gather] in Hl.
    destruct (shelf_links _) as [sl|] eqn:Es; [|discriminate].
    unfold table_links in Hl.
    destruct (book_links is_book _) as [tl|] eqn:Et; [|discriminate].
    injection Hl as <-. rewrite app_nil_r in Hv. rewrite app_nil_r.
    destruct (shelves_valid fuel _ sl Es
                (fun u Hu => Hv u (proj2 (in_app_iff _ _ _) (or_introl Hu)))
                w1)
      as (w2 & books & H2 & Hc).
    destruct (books_of_valid fuel tl
                (fun u Hu => Hv u (proj2 (in_app_iff _ _ _) (or_intror Hu)))
                w2)
      as [w3 H3].
    exists w3. rewrite H2. unfold getTables. rewrite Et, H3.
    unfold ret. rewrite Hc, map_app. reflexivity.
  - unfold getTables. unfold table_links in Hl. rewrite Hl.
    apply books_of_valid, Hv.
  - unfold getTables. unfold table_links in Hl. rewrite Hl.
    apply books_of_valid, Hv.
Qed.

Lemma crawler_valid (f : floor) (fuel : nat) (data : string)
      (links : list string) :
  serves axios_get (floorURL f) data ->
  floor_links f (cheerio_load data) = Some links ->
  (forall url, In url links -> valid url) ->
  links <> [] ->
  forall w, exists w',
    crawl f (S fuel) w = (Fulfilled (map book_at links), w').
Proof.
  intros Hs Hl Hv Hne w.
  destruct (crawl_once_valid f fuel data links Hs Hl Hv w) as [w' H].
  exists w'. apply crawler_returns; [exact H|].
  destruct links; [contradiction | discriminate].
Qed.

End Floors.

(** C8: each of the three crawlers, when a pass over its page ends with no
    book, starts again from the fetch of the page instead of returning; so
    the books a crawler returns are never the empty array. *)
Theorem crawlers_never_return_empty {world : Type}
        (axios_get : string -> async world string)
        (cheerio_load : string -> list node)
        (f : floor) (fuel : nat) (w : world) :
  (forall w',
      crawl_once axios_get cheerio_load f (S fuel) w = (Fulfilled [], w') ->
      crawler axios_get cheerio_load f (S fuel) w
      = crawler axios_get cheerio_load f fuel w')
  /\ (forall books w',
         crawler axios_get cheerio_load f fuel w = (Fulfilled books, w') ->
         books <> []).
Proof.
  split.
  - intros w'. apply crawler_restarts.
  - intros books w'. apply crawler_not_empty.
Qed.

Lemma crawlers_never_return_empty_witness :
  crawl_once (site_get bare_library) (site_load bare_library) SecondFloor 2 0
  = (Fulfilled [], 1)
  /\ getSecondFloor (site_get bare_library) (site_load bare_library) 2 0
     = getSecondFloor (site_get bare_library) (site_load bare_library) 1 1
  /\ getThirdFloor (site_get library) (site_load library) 1 0
     = (Fulfilled [new_Book "Treasure Map XXI"
                            ["Inside a chest in the Deepholme."]], 2)
  /\ [new_Book "Treasure Map XXI" ["Inside a chest in the Deepholme."]] <> [].
Proof.
  assert (E1 : crawl_once (site_get bare_library) (site_load bare_library)
                          SecondFloor 2 0 = (Fulfilled [], 1))
    by (vm_compute; reflexivity).
  assert (E2 : crawler (site_get library) (site_load library) ThirdFloor 1 0
               = (Fulfilled [new_Book "Treasure Map XXI"
                                      ["Inside a chest in the Deepholme."]],
                  2))
    by (vm_compute; reflexivity).
  split; [exact E1|]. split; [|split; [exact E2|]].
  - exact (proj1 (crawlers_never_return_empty
                    (site_get bare_library) (site_load bare_library)
                    SecondFloor 1 0) 1 E1).
  - exact (proj2 (crawlers_never_return_empty
                    (site_get library) (site_load library)
                    ThirdFloor 1 0) _ 2 E2).
Defined.

(** C7, as amended: when the three pages are served unchanged, the first
    yields the links of its shelves and then of its tables, the second and
    the third the links of their tables, every article behind a link loads
    properly at the first request, and each page yields at least one link,
    the array main serializes holds the Books of the links of the first
    page (shelves, then tables, each in the order of the document), then
    those of the second, then those of the third, and its length is
    N1+N2+N3. *)
Theorem main_output {world : Type}
        (axios_get : string -> async world string)
        (cheerio_load : string -> list node)
        (page : string -> string)
        (data1 data2 data3 : string)
        (shelves1 tables1 links2 links3 : list string) :
  serves axios_get firstFloorURL data1 ->
  serves axios_get secondFloorURL data2 ->
  serves axios_get thirdFloorURL data3 ->
  shelf_links (bookshelves (cheerio_load data1)) = Some shelves1 ->
  table_links is_book (cheerio_load data1) = Some tables1 ->
  table_links is_book (cheerio_load data2) = Some links2 ->
  table_links is_book_third_floor (cheerio_load data3) = Some links3 ->
  (forall url,
      In url ((shelves1 ++ tables1) ++ links2 ++ links3) ->
      valid_first_time axios_get cheerio_load page url) ->
  shelves1 ++ tables1 <> [] -> links2 <> [] -> links3 <> [] ->
  forall fuel w, exists allBooks w',
    main axios_get cheerio_load (S fuel) w = (Fulfilled allBooks, w')
    /\ allBooks
       = map (book_at cheerio_load page)
             ((shelves1 ++ tables1) ++ links2 ++ links3)
    /\ length allBooks
       = length (shelves1 ++ tables1) + length links2 + length links3.
Proof.
  intros S1 S2 S3 L1s L1t L2 L3 Hv N1 N2 N3 fuel w.
  assert (L1 : floor_links FirstFloor (cheerio_load data1)
               = Some (shelves1 ++ tables1)).
  { unfold floor_links. cbn [gather]. rewrite L1s, L1t, app_nil_r.
    reflexivity. }
  destruct (crawler_valid world axios_get cheerio_load page FirstFloor fuel
              data1 _ S1 L1
              (fun u Hu => Hv u (proj2 (in_app_iff _ _ _) (or_introl Hu)))
              N1 w) as [w1 H1].
  destruct (crawler_valid world axios_get cheerio_load page SecondFloor fuel
              data2 _ S2 L2
              (fun u Hu => Hv u (proj2 (in_app_iff _ _ _)
                                   (or_intror (proj2 (in_app_iff _ _ _)
                                                 (or_introl Hu)))))
              N2 w1) as [w2 H2].
  destruct (crawler_valid world axios_get cheerio_load page ThirdFloor fuel
              data3 _ S3 L3
              (fun u Hu => Hv u (proj2 (in_app_iff _ _ _)
                                   (or_intror (proj2 (in_app_iff _ _ _)
                                                 (or_intror Hu)))))
              N3 w2) as [w3 H3].
  unfold crawler in H1, H2, H3.
  exists (map (book_at cheerio_load page)
              ((shelves1 ++ tables1) ++ links2 ++ links3)), w3.
  split; [|split].
  - unfold main, await. rewrite H1, H2, H3. unfold ret.
    rewrite !map_app. reflexivity.
  - reflexivity.
  - rewrite length_map, !length_app. lia.
Qed.

Lemma library_serves (s : site) (url : string) (document : list node) :
  lookup url s = Some document -> serves (site_get s) url url.
Proof. intros H w. exists (S w). unfold site_get. rewrite H. reflexivity. Qed.

Lemma main_output_witness :
  exists allBooks w',
    main (site_get library) (site_load library) 1 0 = (Fulfilled allBooks, w')
    /\ allBooks
       = map (book_at (site_load library) (fun url => url))
             (([String.append HOMEPAGE "/wiki/Argonian";
                String.append HOMEPAGE "/wiki/Gourmet"]
               ++ [String.append HOMEPAGE "/wiki/Lost"])
              ++ [String.append HOMEPAGE "/wiki/Gourmet"]
              ++ [String.append HOMEPAGE "/wiki/Treasure_Map_XXI"])
    /\ length allBooks
       = length ([String.append HOMEPAGE "/wiki/Argonian";
                  String.append HOMEPAGE "/wiki/Gourmet"]
                 ++ [String.append HOMEPAGE "/wiki/Lost"])
         + length [String.append HOMEPAGE "/wiki/Gourmet"]
         + length [String.append HOMEPAGE "/wiki/Treasure_Map_XXI"].
Proof.
  apply (main_output (site_get library) (site_load library) (fun url => url)
                     firstFloorURL secondFloorURL thirdFloorURL).
  - apply (library_serves library _ first_floor). vm_compute. reflexivity.
  - apply (library_serves library _ second_floor). vm_compute. reflexivity.
  - apply (library_serves library _ third_floor). vm_compute. reflexivity.
  - vm_compute. reflexivity.
  - vm_compute. reflexivity.
  - vm_compute. reflexivity.
  - vm_compute. reflexivity.
  - intros url Hin. simpl in Hin.
    destruct Hin as [<-|[<-|[<-|[<-|[<-|[]]]]]]; split;
      try (vm_compute; discriminate).
    + apply (library_serves library _ argonian). vm_compute. reflexivity.
    + apply (library_serves library _ gourmet). vm_compute. reflexivity.
    + apply (library_serves library _ lost). vm_compute. reflexivity.
    + apply (library_serves library _ gourmet). vm_compute. reflexivity.
    + apply (library_serves library _ treasure_map). vm_compute. reflexivity.
  - discriminate.
  - discriminate.
  - discriminate.
Defined.

(** On the site whose second floor has a table without any link to an
    article, the crawler of the second floor never settles. *)
Lemma bare_second_floor_pending (fuel : nat) :
  forall w, exists w',
    getSecondFloor (site_get bare_library) (site_load bare_library) fuel w
    = (Pending, w').
Proof.
  induction fuel as [|fuel IH]; intros w.
  - exists w. reflexivity.
  - destruct (IH (S w)) as [w' H]. exists w'.
    change (crawler (site_get bare_library) (site_load bare_library)
                    SecondFloor (S fuel) w = (Pending, w')).
    rewrite crawler_unfold.
    replace (crawl_once (site_get bare_library) (site_load bare_library)
                        SecondFloor (S fuel) w)
      with (@Fulfilled (list Book) [], S w) by (vm_compute; reflexivity).
    exact H.
Qed.

(** C7 as stated fails: on a site whose three pages yield 3, 0 and 1
    links, every article loading properly at the first request, main
    never has an array to serialize, whatever the fuel. *)
Lemma main_without_output :
  shelf_links (bookshelves first_floor)
  = Some [String.append HOMEPAGE "/wiki/Argonian";
          String.append HOMEPAGE "/wiki/Gourmet"]
  /\ table_links is_book first_floor
     = Some [String.append HOMEPAGE "/wiki/Lost"]
  /\ table_links is_book bare_floor = Some []
  /\ table_links is_book_third_floor third_floor
     = Some [String.append HOMEPAGE "/wiki/Treasure_Map_XXI"]
  /\ (forall url,
         In url [String.append HOMEPAGE "/wiki/Argonian";
                 String.append HOMEPAGE "/wiki/Gourmet";
                 String.append HOMEPAGE "/wiki/Lost";
                 String.append HOMEPAGE "/wiki/Treasure_Map_XXI"] ->
         valid_first_time (site_get bare_library) (site_load bare_library)
                          (fun u => u) url)
  /\ ~ (exists fuel allBooks w',
          main (site_get bare_library) (site_load bare_library) fuel 0
          = (Fulfilled allBooks, w')).
Proof.
  repeat split; try (vm_compute; reflexivity).
  - destruct H as [<-|[<-|[<-|[<-|[]]]]].
    + apply (library_serves bare_library _ argonian). vm_compute. reflexivity.
    + apply (library_serves bare_library _ gourmet). vm_compute. reflexivity.
    + apply (library_serves bare_library _ lost). vm_compute. reflexivity.
    + apply (library_serves bare_library _ treasure_map).
      vm_compute. reflexivity.
  - destruct H as [<-|[<-|[<-|[<-|[]]]]]; vm_compute; discriminate.
  - intros (fuel & allBooks & w' & H). unfold main, await in H.
    destruct (getFirstFloor _ _ fuel 0) as [[b1|e1|] w1]; try discriminate H.
    destruct (bare_second_floor_pending fuel w1) as [w2 H2].
    rewrite H2 in H. discriminate H.
Qed.


(* ===================================================================== *)
(** ** Further properties of the script *)
(* ===================================================================== *)

(** *** [trim], [startsWith] and [includes] *)

Lemma trimStart_first (s : string) (c : ascii) :
  first_char (trimStart s) = Some c -> is_space c = false.
Proof.
  induction s as [|a s IH]; simpl; [discriminate|].
  destruct (is_space a) eqn:E; [exact IH|].
  simpl. intros H. injection H as <-. exact E.
Qed.

Lemma trimStart_fixed (s : string) :
  (forall c, first_char s = Some c -> is_space c = false) -> trimStart s = s.
Proof.
  destruct s as [|a s]; simpl; [reflexivity|].
  intros H. rewrite (H a eq_refl). reflexivity.
Qed.

Lemma trimEnd_first (s : string) (c : ascii) :
  first_char (trimEnd s) = Some c -> first_char s = Some c.
Proof.
  destruct s as [|a s]; simpl; [discriminate|].
  destruct (is_space a && (trimEnd s =? "")); simpl; [discriminate | auto].
Qed.

Lemma trimEnd_last (s : string) (c : ascii) :
  last_char (trimEnd s) = Some c -> is_space c = false.
Proof.
  induction s as [|a s IH]; simpl; [discriminate|].
  destruct (String.eqb_spec (trimEnd s) "") as [E|E].
  - destruct (is_space a) eqn:Ea; simpl; [discriminate|].
    rewrite E. intros H. injection H as <-. exact Ea.
  - rewrite andb_false_r. simpl.
    destruct (trimEnd s) as [|b t]; [contradiction | exact IH].
Qed.

Lemma trimEnd_idempotent (s : string) : trimEnd (trimEnd s) = trimEnd s.
Proof.
  induction s as [|a s IH]; simpl; [reflexivity|].
  destruct (is_space a && (trimEnd s =? "")) eqn:E; [reflexivity|].
  simpl. rewrite IH, E. reflexivity.
Qed.

Lemma trim_trimmed (s : string) : trimmed (trim s).
Proof.
  unfold trim. split; intros c H.
  - apply trimEnd_first in H. exact (trimStart_first _ _ H).
  - exact (trimEnd_last _ _ H).
Qed.

Lemma trim_idempotent (s : string) : trim (trim s) = trim s.
Proof.
  unfold trim at 1. rewrite trimStart_fixed by apply trim_trimmed.
  unfold trim. apply trimEnd_idempotent.
Qed.

Lemma prefix_split (p s : string) :
  String.prefix p s = true <-> exists rest, s = String.append p rest.
Proof.
  revert s. induction p as [|a p IH]; intros s; simpl.
  - split; [intros _; exists s; reflexivity | destruct s; reflexivity].
  - destruct s as [|b s]; simpl.
    + split; [discriminate | intros [rest H]; discriminate H].
    + destruct (ascii_dec a b) as [->|N].
      * rewrite IH. split; intros [rest H]; exists rest; congruence.
      * split; [discriminate | intros [rest H]; congruence].
Qed.

Lemma includes_split (s p : string) :
  includes s p = true
  <-> exists before after, s = String.append before (String.append p after).
Proof.
  induction s as [|a s IH]; cbn [includes].
  - rewrite orb_false_r, prefix_split. split.
    + intros [rest H]. exists "", rest. exact H.
    + intros (before & after & H). destruct before; simpl in H.
      * exists after. exact H.
      * discriminate H.
  - rewrite orb_true_iff, prefix_split, IH. split.
    + intros [[rest H]|(before & after & H)].
      * exists "", rest. exact H.
      * exists (String a before), after. simpl. congruence.
    + intros (before & after & H). destruct before as [|b before]; simpl in H.
      * left. exists after. exact H.
      * right. injection H as _ H. exists before, after. exact H.
Qed.

Lemma includes_char (s : string) (c : ascii) :
  includes s (String c EmptyString) = true <-> In c (list_ascii_of_string s).
Proof.
  induction s as [|a s IH]; simpl.
  - split; [discriminate | contradiction].
  - rewrite orb_true_iff, IH. destruct (ascii_dec c a) as [->|N].
    + split; [auto|]. intros _. left. destruct s; reflexivity.
    + split; (intros [H|H]; [|right; exact H]).
      * discriminate H.
      * congruence.
Qed.

(** *** What [getBook] returns *)

Lemma acquisition_locations_trimmed (acquisition : cheerio) :
  Forall (fun l => trimmed l /\ trim l = l)
         (acquisition_locations acquisition).
Proof.
  unfold acquisition_locations.
  destruct (length (map (fun li => trim (text [li]))
                        (children "li" acquisition)) =? 0)%nat.
  - constructor; [|constructor].
    split; [apply trim_trimmed | apply trim_idempotent].
  - apply Forall_forall. intros l Hin.
    apply in_map_iff in Hin as (li & <- & _).
    split; [apply trim_trimmed | apply trim_idempotent].
Qed.

(** X1: the title and every location of a Book returned by getBook are
    trimmed: no white space at either end, and trimming them again
    changes nothing. *)
Theorem getBook_returns_trimmed {world : Type}
        (axios_get : string -> async world string)
        (cheerio_load : string -> list node)
        (fuel : nat) (url : string) (w : world) (b : Book) (w' : world) :
  getBook axios_get cheerio_load fuel url w = (Fulfilled b, w') ->
  trimmed (title b) /\ trim (title b) = title b
  /\ Forall (fun l => trimmed l /\ trim l = l) (locations b).
Proof.
  intros H.
  destruct (getBook_fulfilled _ _ _ _ _ _ _ _ H) as (data & w0 & _ & _ & ->).
  split; [apply trim_trimmed|]. split; [apply trim_idempotent|].
  apply acquisition_locations_trimmed.
Qed.

Lemma getBook_returns_trimmed_witness :
  getBook (site_get library) (site_load library) 1
          (String.append HOMEPAGE "/wiki/Gourmet") 0
  = (Fulfilled (new_Book "Uncommon Taste" ["Riften"; "Solitude, Blue Palace"]),
     1)
  /\ trimmed "Uncommon Taste"
  /\ Forall (fun l => trimmed l /\ trim l = l)
            ["Riften"; "Solitude, Blue Palace"].
Proof.
  assert (H : getBook (site_get library) (site_load library) 1
                      (String.append HOMEPAGE "/wiki/Gourmet") 0
              = (Fulfilled (new_Book "Uncommon Taste"
                                     ["Riften"; "Solitude, Blue Palace"]), 1))
    by (vm_compute; reflexivity).
  split; [exact H|].
  destruct (getBook_returns_trimmed _ _ _ _ _ _ _ H) as (Ht & _ & Hl).
  split; [exact Ht | exact Hl].
Defined.

(** X2: a page with a title on which no element follows the first
    second-level heading of the content, or that has no such heading, is
    returned as a Book whose only location is the empty string. *)
Theorem getBook_without_block {world : Type}
        (axios_get : string -> async world string)
        (cheerio_load : string -> list node)
        (fuel : nat) (url : string) (w : world) (data : string) (w1 : world) :
  axios_get url w = (Fulfilled data, w1) ->
  page_title (cheerio_load data) <> "" ->
  next (first_heading (cheerio_load data)) = [] ->
  getBook axios_get cheerio_load (S fuel) url w
  = (Fulfilled (new_Book (page_title (cheerio_load data)) [""]), w1).
Proof.
  intros G T N.
  rewrite (getBook_returns world axios_get cheerio_load fuel url w data w1 G T).
  unfold book_of_page, page_locations, page_acquisition. rewrite N.
  destruct (page_title (cheerio_load data) =? "Treasure Map XXI");
    reflexivity.
Qed.

Lemma getBook_without_block_witness :
  getBook (site_get library) (site_load library) 1
          (String.append HOMEPAGE "/wiki/Lost") 0
  = (Fulfilled (new_Book (page_title lost) [""]), 1).
Proof.
  apply (getBook_without_block
           (site_get library) (site_load library) 0
           (String.append HOMEPAGE "/wiki/Lost") 0
           (String.append HOMEPAGE "/wiki/Lost") 1 eq_refl).
  - vm_compute. discriminate.
  - vm_compute. reflexivity.
Defined.

(** *** The tests on the links *)

(** X3: the test of lines 70, 96 and 122 accepts exactly the hrefs that
    are /wiki/ followed by a text in which no character is a dot. *)
Theorem is_book_spec (href : string) :
  is_book href = true
  <-> exists rest,
      href = String.append "/wiki/" rest
      /\ ~ In "."%char (list_ascii_of_string rest).
Proof.
  unfold is_book, startsWith.
  rewrite andb_true_iff, negb_true_iff, prefix_split. split.
  - intros [[rest ->] H]. exists rest. split; [reflexivity|].
    intros Hin. apply not_true_iff_false in H. apply H.
    apply includes_char. simpl. auto 10.
  - intros (rest & -> & H). split; [exists rest; reflexivity|].
    apply not_true_iff_false. intros Hinc. apply includes_char in Hinc.
    simpl in Hinc.
    destruct Hinc as [E|[E|[E|[E|[E|[E|Hin]]]]]]; try discriminate E.
    exact (H Hin).
Qed.

(** X4: the test of line 147 accepts exactly the hrefs the other floors
    accept in which /wiki/Treasure_Hunter occurs nowhere; so it also
    rejects every article whose path only begins with that of the
    excluded one. *)
Theorem is_book_third_floor_spec (href : string) :
  (is_book_third_floor href = true
   <-> is_book href = true
       /\ ~ exists before after,
             href = String.append before
                      (String.append "/wiki/Treasure_Hunter" after))
  /\ is_book_third_floor (String.append "/wiki/Treasure_Hunter" href) = false.
Proof.
  assert (E : is_book_third_floor href
              = is_book href && negb (includes href "/wiki/Treasure_Hunter"))
    by reflexivity.
  split.
  - rewrite E, andb_true_iff, negb_true_iff, <- not_true_iff_false,
      includes_split. reflexivity.
  - unfold is_book_third_floor.
    replace (includes (String.append "/wiki/Treasure_Hunter" href)
                      "/wiki/Treasure_Hunter") with true.
    + apply andb_false_r.
    + symmetry. apply includes_split. exists "", href. reflexivity.
Qed.

Lemma links_of_hrefs_filter (test : string -> bool) (hrefs : list string) :
  links_of_hrefs test (map Some hrefs)
  = Some (map (String.append HOMEPAGE) (filter test hrefs)).
Proof.
  induction hrefs as [|h hrefs IH]; [reflexivity|].
  cbn [map links_of_hrefs filter]. rewrite IH.
  destruct (test h); reflexivity.
Qed.

(** X5: the loop over the anchors of a shelf or of the tables throws
    exactly when one of the anchors has no href; otherwise it calls
    getBook once for every anchor whose href passes the test, in the order
    of the anchors, an article linked twice being fetched twice. *)
Theorem book_links_spec (test : string -> bool) (anchors : cheerio) :
  (book_links test anchors = None
   <-> exists a, In a anchors /\ href_of a = None)
  /\ (forall hrefs,
         map href_of anchors = map Some hrefs ->
         book_links test anchors
         = Some (map (String.append HOMEPAGE) (filter test hrefs))).
Proof.
  rewrite book_links_hrefs. split.
  - rewrite links_of_hrefs_none, in_map_iff.
    split; intros (a & H1 & H2); exists a; auto.
  - intros hrefs ->. apply links_of_hrefs_filter.
Qed.

Lemma book_links_spec_witness :
  book_links is_book (table_anchors tabled_floor)
  = Some (map (String.append HOMEPAGE)
              (filter is_book
                      ["/wiki/Gourmet"; "/wiki/File:Shelf.png";
                       "/wiki/Argonian"])).
Proof.
  apply (proj2 (book_links_spec is_book (table_anchors tabled_floor))).
  vm_compute. reflexivity.
Defined.

(** *** [Promise.all] *)

Section PromiseAll.

Variable world : Type.
Variables A B : Type.
Variable g : A -> async world B.

Lemma Promise_all_map_inv (R : A -> B -> Prop) :
  (forall x w b w', g x w = (Fulfilled b, w') -> R x b) ->
  forall xs w bs w',
    Promise_all (map g xs) w = (Fulfilled bs, w') -> Forall2 R xs bs.
Proof.
  intros Hg. induction xs as [|x xs IH]; intros w bs w' H.
  - injection H as <- _. constructor.
  - cbn [map Promise_all] in H.
    destruct (g x w) as [r w1] eqn:E1.
    destruct (Promise_all (map g xs) w1) as [rs w2] eqn:E2.
    destruct r as [b|e|], rs as [l|e'|]; try discriminate H.
    injection H as <- _. constructor; [exact (Hg _ _ _ _ E1) | eauto].
Qed.

Lemma Promise_all_map_rejects (x : A) (xs : list A) :
  In x xs ->
  (forall w, exists e w', g x w = (Rejected e, w')) ->
  forall w, exists e w', Promise_all (map g xs) w = (Rejected e, w').
Proof.
  intros Hin Hx. induction xs as [|y xs IH]; [contradiction|].
  intros w. cbn [map Promise_all].
  destruct Hin as [->|Hin].
  - destruct (Hx w) as (e & w1 & E1). rewrite E1.
    destruct (Promise_all (map g xs) w1) as [rs w2]. exists e, w2.
    reflexivity.
  - destruct (g y w) as [r w1].
    destruct (IH Hin w1) as (e & w2 & E2). rewrite E2.
    destruct r as [b|e0|]; [exists e, w2 | exists e0, w2 | exists e, w2];
      reflexivity.
Qed.

End PromiseAll.

(** *** The crawlers *)

Section MoreFloors.

Variable world : Type.
Variable axios_get : string -> async world string.
Variable cheerio_load : string -> list node.

#[local] Abbreviation crawl := (crawler axios_get cheerio_load).
#[local] Abbreviation pass := (crawl_once axios_get cheerio_load).
#[local] Abbreviation book := (Scrape.getBook axios_get cheerio_load).
#[local] Abbreviation read := (read_from axios_get cheerio_load).

Lemma getBook_read (fuel : nat) (url : string) (w : world) (b : Book)
      (w' : world) :
  book fuel url w = (Fulfilled b, w') -> read url b.
Proof.
  intros H.
  destruct (getBook_fulfilled _ _ _ _ _ _ _ _ H) as (data & w0 & G & T & E).
  exists w0, data, w'. auto.
Qed.

Lemma books_of_inv (fuel : nat) (links : option (list string)) (w : world)
      (books : list Book) (w' : world) :
  books_of axios_get cheerio_load fuel links w = (Fulfilled books, w') ->
  exists urls, links = Some urls /\ Forall2 read urls books.
Proof.
  destruct links as [urls|]; [|discriminate]. intros H. exists urls.
  split; [reflexivity|].
  exact (Promise_all_map_inv world _ _ (book fuel) read
           (getBook_read fuel) urls w books w' H).
Qed.

Lemma shelves_inv (fuel : nat) (ols : list cursor) (w : world)
      (shelves : list (list Book)) (w' : world) :
  Promise_all
    (map (fun ol => getBookshelf axios_get cheerio_load fuel [ol]) ols) w
  = (Fulfilled shelves, w') ->
  exists links, shelf_links ols = Some links
                /\ Forall2 read links (concat shelves).
Proof.
  intros H.
  apply (Promise_all_map_inv world _ _ _
           (fun ol bs =>
              exists l, book_links is_book (bookshelf_anchors [ol]) = Some l
                        /\ Forall2 read l bs)) in H.
  - unfold shelf_links. induction H as [|ol bs ols shelves (l & El & Hl) _ IH].
    + exists []. split; [reflexivity | constructor].
    + destruct IH as (more & Em & Hm). exists (l ++ more).
      cbn [map gather concat]. rewrite El, Em.
      split; [reflexivity | apply Forall2_app; assumption].
  - intros ol w0 bs w0' H0. apply books_of_inv in H0 as (l & El & Hl). eauto.
Qed.

Lemma crawl_once_inv (f : floor) (fuel : nat) (w : world)
      (books : list Book) (w' : world) :
  pass f fuel w = (Fulfilled books, w') ->
  exists data w1 links,
    axios_get (floorURL f) w = (Fulfilled data, w1)
    /\ floor_links f (cheerio_load data) = Some links
    /\ Forall2 read links books.
Proof.
  intros H. destruct f; unfold crawl_once, floorURL, await in H |- *;
    destruct (axios_get _ w) as [[data|e|] w1]; try discriminate H;
    exists data, w1.
  - destruct (Promise_all _ w1) as [[shelves|e|] w2] eqn:Es;
      try discriminate H.
    destruct (getTables _ _ _ _ _ w2) as [[table_books|e|] w3] eqn:Et;
      try discriminate H.
    injection H as <- _.
    apply shelves_inv in Es as (sl & Es & Hs).
    apply books_of_inv in Et as (tl & Et & Ht).
    exists (sl ++ tl). split; [reflexivity|].
    split; [|apply Forall2_app; assumption].
    unfold floor_links, table_links. cbn [gather].
    rewrite Es, Et, app_nil_r. reflexivity.
  - apply books_of_inv in H as (tl & Et & Ht). exists tl. auto.
  - apply books_of_inv in H as (tl & Et & Ht). exists tl. auto.
Qed.

Lemma crawler_inv (f : floor) (fuel : nat) :
  forall w books w',
    crawl f fuel w = (Fulfilled books, w') ->
    exists w0 data w1 links,
      axios_get (floorURL f) w0 = (Fulfilled data, w1)
      /\ floor_links f (cheerio_load data) = Some links
      /\ Forall2 read links books.
Proof.
  induction fuel as [|fuel IH]; intros w books w' H.
  - destruct f; discriminate H.
  - rewrite crawler_unfold in H.
    destruct (crawl_once axios_get cheerio_load f (S fuel) w)
      as [[bs|e|] w1] eqn:E; try discriminate H.
    destruct bs as [|b bs]; cbn [length Nat.eqb] in H.
    + exact (IH _ _ _ H).
    + injection H as <- _.
      apply crawl_once_inv in E as (data & w2 & links & G & L & F).
      exists w, data, w2, links. auto.
Qed.

Lemma read_invariant (url : string) (b : Book) :
  read url b -> returned_invariant b /\ trimmed (title b).
Proof.
  intros (w & data & w' & _ & T & ->). split.
  - split; [exact T | apply acquisition_locations_length].
  - apply trim_trimmed.
Qed.

Lemma crawler_books_invariant (f : floor) (fuel : nat) (w : world)
      (books : list Book) (w' : world) :
  crawl f fuel w = (Fulfilled books, w') ->
  Forall (fun b => returned_invariant b /\ trimmed (title b)) books.
Proof.
  intros H. apply crawler_inv in H as (_ & _ & _ & links & _ & _ & F).
  induction F as [|url b links books R _ IH]; constructor;
    [exact (read_invariant url b R) | exact IH].
Qed.

Lemma main_inv (fuel : nat) (w : world) (allBooks : list Book) (w' : world) :
  main axios_get cheerio_load fuel w = (Fulfilled allBooks, w') ->
  exists firstFloor w1 secondFloor w2 thirdFloor,
    crawl FirstFloor fuel w = (Fulfilled firstFloor, w1)
    /\ crawl SecondFloor fuel w1 = (Fulfilled secondFloor, w2)
    /\ crawl ThirdFloor fuel w2 = (Fulfilled thirdFloor, w')
    /\ allBooks = firstFloor ++ secondFloor ++ thirdFloor.
Proof.
  unfold main, await, ret, crawler. intros H.
  destruct (getFirstFloor _ _ fuel w) as [[b1|e|] w1] eqn:E1;
    try discriminate H.
  destruct (getSecondFloor _ _ fuel w1) as [[b2|e|] w2] eqn:E2;
    try discriminate H.
  destruct (getThirdFloor _ _ fuel w2) as [[b3|e|] w3] eqn:E3;
    try discriminate H.
  injection H as <- <-. exists b1, w1, b2, w2, b3. auto.
Qed.

End MoreFloors.

(** X6: the books a crawler returns follow the links of a page that was
    served for its address: there is one Book for each link the page
    yields, in the order of the links, and each Book was read from a page
    with a title served for its link. *)
Theorem crawler_books_follow_links {world : Type}
        (axios_get : string -> async world string)
        (cheerio_load : string -> list node)
        (f : floor) (fuel : nat) (w : world) (books : list Book)
        (w' : world) :
  crawler axios_get cheerio_load f fuel w = (Fulfilled books, w') ->
  exists data links,
    (exists w0 w1, axios_get (floorURL f) w0 = (Fulfilled data, w1))
    /\ floor_links f (cheerio_load data) = Some links
    /\ Forall2 (read_from axios_get cheerio_load) links books
    /\ length books = length links.
Proof.
  intros H.
  apply crawler_inv in H as (w0 & data & w1 & links & G & L & F).
  exists data, links. split; [eauto|]. split; [exact L|].
  split; [exact F|]. symmetry. exact (Forall2_length F).
Qed.

Lemma crawler_books_follow_links_witness :
  exists data links,
    (exists w0 w1,
        site_get library (floorURL FirstFloor) w0 = (Fulfilled data, w1))
    /\ floor_links FirstFloor (site_load library data) = Some links
    /\ Forall2 (read_from (site_get library) (site_load library)) links
               [new_Book "The Lusty Argonian Maid" ["Whiterun, Dragonsreach"];
                new_Book "Uncommon Taste" ["Riften"; "Solitude, Blue Palace"];
                new_Book "Lost Legends" [""]]
    /\ length [new_Book "The Lusty Argonian Maid" ["Whiterun, Dragonsreach"];
               new_Book "Uncommon Taste" ["Riften"; "Solitude, Blue Palace"];
               new_Book "Lost Legends" [""]]
       = length links.
Proof.
  apply (crawler_books_follow_links
           (site_get library) (site_load library) FirstFloor 1 0 _ 4).
  vm_compute. reflexivity.
Defined.

(** X7: the array main serializes holds at least three Books, one or more
    from each floor, and each of them has a trimmed title that is not
    empty and at least one location. *)
Theorem main_output_invariant {world : Type}
        (axios_get : string -> async world string)
        (cheerio_load : string -> list node)
        (fuel : nat) (w : world) (allBooks : list Book) (w' : world) :
  main axios_get cheerio_load fuel w = (Fulfilled allBooks, w') ->
  3 <= length allBooks
  /\ Forall (fun b => returned_invariant b /\ trimmed (title b)) allBooks.
Proof.
  intros H.
  apply main_inv in H as (b1 & w1 & b2 & w2 & b3 & H1 & H2 & H3 & ->).
  split.
  - pose proof (crawler_not_empty _ _ _ _ _ _ _ _ H1) as N1.
    pose proof (crawler_not_empty _ _ _ _ _ _ _ _ H2) as N2.
    pose proof (crawler_not_empty _ _ _ _ _ _ _ _ H3) as N3.
    rewrite !length_app.
    destruct b1; [contradiction|]. destruct b2; [contradiction|].
    destruct b3; [contradiction|]. simpl. lia.
  - repeat (apply Forall_app; split);
      eapply crawler_books_invariant; eassumption.
Qed.

Lemma main_output_invariant_witness :
  exists allBooks,
    main (site_get library) (site_load library) 1 0 = (Fulfilled allBooks, 8)
    /\ 3 <= length allBooks
    /\ Forall (fun b => returned_invariant b /\ trimmed (title b)) allBooks.
Proof.
  eexists. split; [vm_compute; reflexivity|].
  apply (main_output_invariant (site_get library) (site_load library) 1 0 _ 8).
  vm_compute. reflexivity.
Defined.

Lemma book_links_none (test : string -> bool) (anchors : cheerio) :
  (exists a, In a anchors /\ href_of a = None) ->
  book_links test anchors = None.
Proof.
  intros (a & Hin & Ha). rewrite book_links_hrefs.
  apply links_of_hrefs_none. rewrite <- Ha. apply in_map, Hin.
Qed.

(** X8: an anchor without href makes the loop that meets it throw:
    getBookshelf rejects with a TypeError when such an anchor is directly
    under an item of its shelf, and the crawlers of the second and third
    floors reject with a TypeError when one is anywhere in the tables of
    their page, whatever the other links are. *)
Theorem missing_href_rejects {world : Type}
        (axios_get : string -> async world string)
        (cheerio_load : string -> list node) (fuel : nat) (w : world) :
  (forall ol,
      (exists a, In a (bookshelf_anchors ol) /\ href_of a = None) ->
      fst (getBookshelf axios_get cheerio_load fuel ol w) = Rejected TypeError)
  /\ (forall f data w1,
         f <> FirstFloor ->
         axios_get (floorURL f) w = (Fulfilled data, w1) ->
         (exists a, In a (table_anchors (cheerio_load data))
                    /\ href_of a = None) ->
         fst (crawler axios_get cheerio_load f (S fuel) w)
         = Rejected TypeError).
Proof.
  split.
  - intros ol H. unfold getBookshelf.
    rewrite (book_links_none is_book _ H). reflexivity.
  - intros f data w1 Hf G H. rewrite crawler_unfold.
    destruct f; [contradiction| |];
      unfold crawl_once, floorURL, await in *; rewrite G; unfold getTables;
      rewrite (book_links_none _ _ H); reflexivity.
Qed.

Lemma missing_href_rejects_witness :
  fst (getBookshelf (site_get broken_library) (site_load broken_library) 1
                    [Cursor (Elem "ol" []
                                  [Elem "li" [] [Elem "a" [] [Text "top"]]])
                            []] 0)
  = Rejected TypeError
  /\ fst (getSecondFloor (site_get broken_library) (site_load broken_library)
                         1 0)
     = Rejected TypeError.
Proof.
  destruct (missing_href_rejects (site_get broken_library)
                                 (site_load broken_library) 0 0)
    as [_ Hfloor].
  destruct (missing_href_rejects (site_get broken_library)
                                 (site_load broken_library) 1 0)
    as [Hshelf _].
  split.
  - apply Hshelf.
    exists (Cursor (Elem "a" [] [Text "top"]) []).
    split; [left; reflexivity | reflexivity].
  - apply (Hfloor SecondFloor secondFloorURL 1).
    + discriminate.
    + reflexivity.
    + exists (Cursor (Elem "a" [("name", "top")] [Text "top"]) []).
      split; [vm_compute; right; left; reflexivity | reflexivity].
Defined.

Lemma getBook_unreachable {world : Type}
      (axios_get : string -> async world string)
      (cheerio_load : string -> list node) (fuel : nat) (url : string) :
  unreachable axios_get url ->
  forall w, exists e w',
    getBook axios_get cheerio_load (S fuel) url w = (Rejected e, w').
Proof.
  intros Hu w. destruct (Hu w) as (e & w' & G). exists e, w'.
  exact (getBook_rejected world axios_get cheerio_load fuel url w e w' G).
Qed.

(** X9: when one of the links of the first Promise.all of a crawler (the
    links of its shelves on the first floor, of its tables on the others)
    is the address of an article no request for which is ever answered,
    the crawler rejects: one unreachable article stops the whole floor,
    whatever becomes of the other articles. *)
Theorem unreachable_article_rejects {world : Type}
        (axios_get : string -> async world string)
        (cheerio_load : string -> list node)
        (f : floor) (fuel : nat) (w : world) (data : string) (w1 : world)
        (links : list string) (url : string) :
  axios_get (floorURL f) w = (Fulfilled data, w1) ->
  first_batch f (cheerio_load data) = Some links ->
  In url links ->
  unreachable axios_get url ->
  exists e w',
    crawler axios_get cheerio_load f (S fuel) w = (Rejected e, w').
Proof.
  intros G L Hin Hu.
  assert (Hbooks : forall l, In url l -> forall w0, exists e w',
               books_of axios_get cheerio_load (S fuel) (Some l) w0
               = (Rejected e, w')).
  { intros l Hl. unfold books_of.
    apply (Promise_all_map_rejects world _ _ _ url l Hl).
    apply getBook_unreachable, Hu. }
  rewrite crawler_unfold.
  destruct f; unfold crawl_once, floorURL, first_batch, await in *;
    rewrite G.
  - unfold shelf_links in L.
    apply (gather_in _ _ L) in Hin as (part & Hpart & Hin).
    apply in_map_iff in Hpart as (ol & Hol & Hshelf).
    destruct (Promise_all_map_rejects world _ _
                (fun ol => getBookshelf axios_get cheerio_load (S fuel) [ol])
                ol (bookshelves (cheerio_load data)) Hshelf) with (w := w1)
      as (e & w2 & E).
    + intros w0. unfold getBookshelf. rewrite Hol. apply Hbooks, Hin.
    + rewrite E. eauto.
  - unfold getTables. unfold table_links in L. rewrite L.
    destruct (Hbooks links Hin w1) as (e & w2 & E). rewrite E. eauto.
  - unfold getTables. unfold table_links in L. rewrite L.
    destruct (Hbooks links Hin w1) as (e & w2 & E). rewrite E. eauto.
Qed.

Lemma unreachable_article_rejects_witness :
  exists e w',
    getFirstFloor (site_get closed_library) (site_load closed_library) 1 0
    = (Rejected e, w').
Proof.
  apply (unreachable_article_rejects
           (site_get closed_library) (site_load closed_library)
           FirstFloor 0 0 firstFloorURL 1
           [String.append HOMEPAGE "/wiki/Argonian";
            String.append HOMEPAGE "/wiki/Gourmet"]
           (String.append HOMEPAGE "/wiki/Gourmet")).
  - reflexivity.
  - vm_compute. reflexivity.
  - right. left. reflexivity.
  - intros w. exists AxiosError, (S w). reflexivity.
Defined.

Lemma elements_named_in (t : string) (ns : list node) (c : cursor) :
  In c (elements_named t ns) ->
  In (cur c) ns /\ exists attribs kids, cur c = Elem t attribs kids.
Proof.
  induction ns as [|n ns IH]; simpl; [contradiction|].
  destruct n as [d|d|name attribs kids]; try (intros H; split; [right|];
    apply IH, H).
  intros H. apply in_app_iff in H as [H|H].
  - destruct (String.eqb_spec name t) as [->|]; [|contradiction].
    destruct H as [<-|[]]. simpl. split; [left; reflexivity | eauto].
  - split; [right|]; apply IH, H.
Qed.

(** X10: the anchors getBookshelf follows are a elements directly under li
    elements directly under the shelf; a link nested deeper in an item is
    not followed. *)
Theorem bookshelf_anchors_are_direct (ol : cheerio) (a : cursor) :
  In a (bookshelf_anchors ol) ->
  exists shelf li,
    In shelf ol
    /\ In (cur li) (children_of (cur shelf))
    /\ (exists attribs kids, cur li = Elem "li" attribs kids)
    /\ In (cur a) (children_of (cur li))
    /\ (exists attribs kids, cur a = Elem "a" attribs kids).
Proof.
  unfold bookshelf_anchors, children. intros H.
  apply in_flat_map in H as (li & Hli & Ha).
  apply in_flat_map in Hli as (shelf & Hshelf & Hli).
  cbn [flat_map] in Ha. rewrite app_nil_r in Ha.
  apply elements_named_in in Hli as [Hli1 Hli2].
  apply elements_named_in in Ha as [Ha1 Ha2].
  exists shelf, li. auto.
Qed.

Lemma bookshelf_anchors_are_direct_witness :
  bookshelf_anchors
    [Cursor (Elem "ol" []
                  [Elem "li" []
                        [Elem "i" [] [Fixture.a "/wiki/Nested" "nested"];
                         Fixture.a "/wiki/Gourmet" "Uncommon Taste"]]) []]
  = [Cursor (Fixture.a "/wiki/Gourmet" "Uncommon Taste") []]
  /\ exists shelf li,
      In shelf
         [Cursor (Elem "ol" []
                       [Elem "li" []
                             [Elem "i" [] [Fixture.a "/wiki/Nested" "nested"];
                              Fixture.a "/wiki/Gourmet" "Uncommon Taste"]]) []]
      /\ In (cur li) (children_of (cur shelf))
      /\ (exists attribs kids, cur li = Elem "li" attribs kids)
      /\ In (cur (Cursor (Fixture.a "/wiki/Gourmet" "Uncommon Taste") []))
            (children_of (cur li))
      /\ (exists attribs kids,
             cur (Cursor (Fixture.a "/wiki/Gourmet" "Uncommon Taste") [])
             = Elem "a" attribs kids).
Proof.
  split; [vm_compute; reflexivity|].
  apply bookshelf_anchors_are_direct. vm_compute. left. reflexivity.
Defined.

(** X11: on a network that answers the requests with a given sequence of
    texts, getBook skips the pages without a title and returns the Book of
    the first page that has one, having made exactly one request for each
    page skipped and one for the page returned; with no more fuel than
    pages to skip it has not settled. *)
Theorem getBook_retries (cheerio_load : string -> list node)
        (blanks : list string) (good : string) (rest : list (option string))
        (url : string) (extra : nat) :
  Forall (fun data => page_title (cheerio_load data) = "") blanks ->
  page_title (cheerio_load good) <> "" ->
  getBook script_get cheerio_load (S (length blanks + extra)) url
          (map Some blanks ++ Some good :: rest)
  = (Fulfilled (book_of_page (cheerio_load good)), rest)
  /\ getBook script_get cheerio_load (length blanks) url
             (map Some blanks ++ Some good :: rest)
     = (Pending, Some good :: rest).
Proof.
  intros Hb Hg. induction Hb as [|data blanks Hd _ IH].
  - split; [|reflexivity].
    apply (getBook_returns _ script_get cheerio_load _ url
                           (Some good :: rest) good rest eq_refl Hg).
  - destruct IH as [IH1 IH2]. cbn [length map app Nat.add]. split.
    + rewrite (getBook_repeats _ script_get cheerio_load _ url
                 (Some data :: map Some blanks ++ Some good :: rest)
                 data _ eq_refl Hd).
      exact IH1.
    + rewrite (getBook_repeats _ script_get cheerio_load _ url
                 (Some data :: map Some blanks ++ Some good :: rest)
                 data _ eq_refl Hd).
      exact IH2.
Qed.

Lemma getBook_retries_witness :
  getBook script_get (site_load texts) 4 "u"
          [Some "blank"; Some "blank"; Some "argonian"; Some "lost"]
  = (Fulfilled (book_of_page argonian), [Some "lost"])
  /\ getBook script_get (site_load texts) 2 "u"
             [Some "blank"; Some "blank"; Some "argonian"; Some "lost"]
     = (Pending, [Some "argonian"; Some "lost"]).
Proof.
  apply (getBook_retries (site_load texts) ["blank"; "blank"] "argonian"
                         [Some "lost"] "u" 1).
  - repeat constructor.
  - vm_compute. discriminate.
Defined.
